(** * susanoo: weather polling and normalisation

    A shallow embedding of the Go program of ymotongpoo/susanoo
    ([src/main.go], the plain poller, and [src/unnamed/part_000], the
    poller that records OpenCensus measurements) and the properties of its
    two provider adapters, its recorder and its poll loop.

    Layout:
    - [float64]: Go's float64 as IEEE 754 binary64, on the Standard
      Library's executable specification [SpecFloat];
    - the Weather Record and the two provider schemas;
    - [OWMToWeather] and [DSToWeather];
    - the JSON decoder contract used by [CallDarkSkyForecast];
    - the effectful part (log, recorder, poll loop) in a small
      state-and-exit monad, once for each of the two source files;
    - the theorems. *)

From Stdlib Require Import ZArith QArith Qround Lia List String Ascii Bool.
From Stdlib Require Import Floats.SpecFloat.
Import ListNotations.

Set Warnings "-register-all".

Local Open Scope Z_scope.

(* ===================================================================== *)
(** * float64 *)
(* ===================================================================== *)

(** Go's [float64] is IEEE 754 binary64: 53 bits of precision, infinities
    at exponent 1024, arithmetic rounded to nearest, ties to even. *)
Definition float64 := spec_float.

Definition prec : Z := 53.
Definition emax : Z := 1024.

(** The values of the type: the finite ones have a canonical mantissa and
    exponent. *)
Definition is_float64 (x : float64) : Prop := valid_binary prec emax x = true.

Definition f64_zero : float64 := S754_zero false.

(** [x * y] and [x / y] on float64. *)
Definition f64_mul (x y : float64) : float64 := SFmul prec emax x y.
Definition f64_div (x y : float64) : float64 := SFdiv prec emax x y.

(** [x <= y] on float64 (false as soon as one side is a NaN). *)
Definition f64_leb (x y : float64) : bool := SFleb x y.

(** The float64 nearest to the integer [n]: the conversion [float64(n)] and
    the value of an untyped integer constant in a float64 expression. *)
Definition f64_of_Z (n : Z) : float64 := binary_normalize prec emax n 0 false.

(** The float64 nearest to the decimal [m * 10^-k]: what a decimal literal
    denotes, in Go source and in a JSON document alike. *)
Definition f64_of_decimal (m : Z) (k : N) : float64 :=
  let ten_k := Z.to_pos (10 ^ Z.of_N k) in
  match m with
  | Z0 => S754_zero false
  | Zpos p => SFdiv prec emax (S754_finite false p 0) (S754_finite false ten_k 0)
  | Zneg p => SFdiv prec emax (S754_finite true p 0) (S754_finite false ten_k 0)
  end.

(** The rational a float64 stands for (0 for the non-finite ones, which
    have none). *)
Definition f64_val (x : float64) : Q :=
  match x with
  | S754_finite s m e =>
      let sm := if s then Zneg m else Zpos m in
      match e with
      | Zneg p => sm # (2 ^ p)%positive
      | _ => inject_Z (sm * 2 ^ e)
      end
  | _ => 0%Q
  end.

(** The integer part of a float64, rounding toward zero; [None] for the
    infinities and NaN. *)
Definition f64_trunc (x : float64) : option Z :=
  match x with
  | S754_zero _ => Some 0
  | S754_finite s m e =>
      let sm := if s then Zneg m else Zpos m in
      Some (match e with
            | Zneg p => Z.quot sm (2 ^ Zpos p)
            | _ => sm * 2 ^ e
            end)
  | _ => None
  end.

(** Go's [int] is 32 bits wide on GOARCH=arm (the Makefile's [armbuild]
    target) and 64 bits wide on a 64-bit host (its [build] target). *)
Inductive word_size := W32 | W64.

Definition int_bits (ws : word_size) : Z :=
  match ws with W32 => 32 | W64 => 64 end.

Definition int_min (ws : word_size) : Z := - 2 ^ (int_bits ws - 1).
Definition int_max (ws : word_size) : Z := 2 ^ (int_bits ws - 1) - 1.

Definition in_int (ws : word_size) (n : Z) : bool :=
  (int_min ws <=? n) && (n <=? int_max ws).

(** The conversion [int(x)] of a float64. The Go specification: the
    fraction is discarded (truncation toward zero); when the result type
    cannot represent the value, the conversion succeeds and the result is
    implementation-dependent. [unrep] is that implementation's choice. *)
Definition f64_to_int (ws : word_size) (unrep : float64 -> Z) (x : float64) : Z :=
  match f64_trunc x with
  | Some t => if in_int ws t then t else unrep x
  | None => unrep x
  end.

(** The conversion [int64(n)] of an [int]: two's complement wrap-around
    into 64 bits, the identity on every value an [int] can hold. *)
Definition int64_of_int (n : Z) : Z := (n + 2 ^ 63) mod 2 ^ 64 - 2 ^ 63.

(** Order on dyadic numbers [m1 * 2^e1 <= m2 * 2^e2], over the integers. *)
Definition dyadic_le (m1 e1 m2 e2 : Z) : Prop :=
  m1 * 2 ^ (e1 - Z.min e1 e2) <= m2 * 2 ^ (e2 - Z.min e1 e2).

(* ===================================================================== *)
(** * Facts on rounding *)
(* ===================================================================== *)

Section RoundingFacts.

Lemma digits2_pos_size (p : positive) : digits2_pos p = Pos.size p.
Proof. induction p; simpl; congruence. Qed.

Lemma digits2_pos_bounds (p : positive) :
  2 ^ (Zpos (digits2_pos p) - 1) <= Zpos p < 2 ^ Zpos (digits2_pos p).
Proof.
  rewrite digits2_pos_size. split.
  - pose proof (Pos.size_le p) as H.
    apply Pos2Z.pos_le_pos in H. rewrite Pos2Z.inj_pow in H.
    change (Zpos p~0) with (2 * Zpos p) in H.
    replace (Zpos (Pos.size p)) with (Z.succ (Zpos (Pos.size p) - 1)) in H by lia.
    rewrite Z.pow_succ_r in H by lia. lia.
  - pose proof (Pos.size_gt p) as H.
    apply Pos2Z.pos_lt_pos in H. rewrite Pos2Z.inj_pow in H. exact H.
Qed.

Lemma dyadic_le_at (z m1 e1 m2 e2 : Z) :
  z <= e1 -> z <= e2 ->
  (dyadic_le m1 e1 m2 e2 <-> m1 * 2 ^ (e1 - z) <= m2 * 2 ^ (e2 - z)).
Proof.
  intros H1 H2. unfold dyadic_le.
  set (k := Z.min e1 e2).
  assert (Hk : z <= k) by (unfold k; lia).
  assert (Hk1 : k <= e1) by (unfold k; lia).
  assert (Hk2 : k <= e2) by (unfold k; lia).
  replace (e1 - z) with ((e1 - k) + (k - z)) by lia.
  replace (e2 - z) with ((e2 - k) + (k - z)) by lia.
  rewrite !Z.pow_add_r by lia.
  assert (Hp : 0 < 2 ^ (k - z)) by (apply Z.pow_pos_nonneg; lia).
  rewrite !Z.mul_assoc.
  split; intro H.
  - apply Z.mul_le_mono_nonneg_r; lia.
  - apply Z.mul_le_mono_pos_r in H; lia.
Qed.

Lemma shr_1_nonneg (m : Z) (r s : bool) :
  0 <= m ->
  shr_1 (Build_shr_record m r s) = Build_shr_record (m / 2) (Z.odd m) (r || s).
Proof.
  intros Hm. rewrite <- Z.div2_div.
  destruct m as [|[p|p|]|]; try reflexivity; lia.
Qed.

Lemma pow2_xO (p : positive) : 2 ^ Zpos p~0 = 2 ^ Zpos p * 2 ^ Zpos p.
Proof. rewrite Pos2Z.inj_xO, <- Z.pow_add_r by lia. f_equal. lia. Qed.

Lemma pow2_xI (p : positive) : 2 ^ Zpos p~1 = 2 * (2 ^ Zpos p * 2 ^ Zpos p).
Proof.
  rewrite Pos2Z.inj_xI, <- Z.pow_add_r, <- Z.pow_succ_r by lia. f_equal. lia.
Qed.

Lemma pow2_pos (p : positive) : 0 < 2 ^ Zpos p.
Proof. apply Z.pow_pos_nonneg; lia. Qed.

(** [p] one-bit right shifts divide the mantissa by [2^p]; started from an
    exact record on a multiple of [2^p] they end on an exact record. *)
Lemma iter_shr_1_m (p : positive) : forall mrs,
  0 <= shr_m mrs ->
  shr_m (iter_pos shr_1 p mrs) = shr_m mrs / 2 ^ Zpos p.
Proof.
  induction p as [p IH|p IH|]; intros [m r s] Hm;
    cbn [iter_pos shr_m] in *; try pose proof (pow2_pos p) as Hp.
  - rewrite shr_1_nonneg by assumption.
    assert (H2 : 0 <= m / 2) by (apply Z.div_pos; lia).
    assert (H3 : 0 <= m / 2 / 2 ^ Zpos p) by (apply Z.div_pos; lia).
    rewrite IH by (rewrite IH; cbn [shr_m]; assumption).
    rewrite IH by (cbn [shr_m]; assumption).
    cbn [shr_m]. rewrite pow2_xI, !Z.div_div by lia. reflexivity.
  - assert (H3 : 0 <= m / 2 ^ Zpos p) by (apply Z.div_pos; lia).
    rewrite IH by (rewrite IH; cbn [shr_m]; assumption).
    rewrite IH by (cbn [shr_m]; assumption).
    cbn [shr_m]. rewrite pow2_xO, !Z.div_div by lia. reflexivity.
  - rewrite shr_1_nonneg by assumption. reflexivity.
Qed.

Lemma iter_shr_1_exact (p : positive) : forall m,
  0 <= m -> m mod 2 ^ Zpos p = 0 ->
  iter_pos shr_1 p (Build_shr_record m false false)
  = Build_shr_record (m / 2 ^ Zpos p) false false.
Proof.
  induction p as [p IH|p IH|]; intros m Hm Hmod; cbn [iter_pos];
    try pose proof (pow2_pos p) as Hp.
  - rewrite pow2_xI in *.
    rewrite Z.rem_mul_r in Hmod by lia.
    rewrite Z.rem_mul_r in Hmod by lia.
    assert (H0 : 0 <= m mod 2 < 2) by (apply Z.mod_pos_bound; lia).
    assert (H3 : 0 <= (m / 2) mod 2 ^ Zpos p) by (apply Z.mod_pos_bound; lia).
    assert (H4 : 0 <= (m / 2 / 2 ^ Zpos p) mod 2 ^ Zpos p)
      by (apply Z.mod_pos_bound; lia).
    assert (Hodd : Z.odd m = false).
    { pose proof (Zmod_odd m) as Ho. destruct (Z.odd m); [nia | reflexivity]. }
    rewrite shr_1_nonneg by assumption. rewrite Hodd. cbn [orb].
    assert (H2 : 0 <= m / 2) by (apply Z.div_pos; lia).
    rewrite IH by (try assumption; nia).
    rewrite IH; [ | apply Z.div_pos; lia | nia].
    rewrite !Z.div_div by lia. reflexivity.
  - rewrite pow2_xO in *.
    rewrite Z.rem_mul_r in Hmod by lia.
    assert (H3 : 0 <= m mod 2 ^ Zpos p) by (apply Z.mod_pos_bound; lia).
    assert (H4 : 0 <= (m / 2 ^ Zpos p) mod 2 ^ Zpos p)
      by (apply Z.mod_pos_bound; lia).
    rewrite IH by (try assumption; nia).
    rewrite IH; [ | apply Z.div_pos; lia | nia].
    rewrite Z.div_div by lia. reflexivity.
  - change (2 ^ 1) with 2 in *.
    rewrite shr_1_nonneg by assumption.
    pose proof (Zmod_odd m) as Ho. destruct (Z.odd m); [lia | reflexivity].
Qed.

Lemma round_nearest_even_le (m : Z) (l : location) :
  m <= round_nearest_even m l <= m + 1.
Proof.
  destruct l as [|[| |]]; simpl; try lia.
  destruct (Z.even m); lia.
Qed.

Lemma fexp_binary64 (x : Z) : fexp prec emax x = Z.max (x - 53) (-1074).
Proof. reflexivity. Qed.

(** A positive number below a 53-bit bound has no more digits above the
    bound's exponent than the bound has. *)
Lemma dyadic_le_digits (M : positive) (E K c : Z) :
  0 < K < 2 ^ 53 -> dyadic_le (Zpos M) E K c ->
  Zpos (digits2_pos M) + E <= 53 + c.
Proof.
  intros HK Hle. unfold dyadic_le in Hle.
  set (z := Z.min E c) in *.
  assert (HzE : 0 <= E - z) by (unfold z; lia).
  assert (Hzc : 0 <= c - z) by (unfold z; lia).
  pose proof (digits2_pos_bounds M) as [Hd _].
  set (d := Zpos (digits2_pos M)) in *.
  assert (Hd1 : 0 <= d - 1) by (unfold d; lia).
  assert (HpE : 0 < 2 ^ (E - z)) by (apply Z.pow_pos_nonneg; lia).
  assert (Hpc : 0 < 2 ^ (c - z)) by (apply Z.pow_pos_nonneg; lia).
  assert (H1 : 2 ^ (d - 1 + (E - z)) <= Zpos M * 2 ^ (E - z)).
  { rewrite Z.pow_add_r by lia. apply Z.mul_le_mono_nonneg_r; lia. }
  assert (H2 : K * 2 ^ (c - z) < 2 ^ (53 + (c - z))).
  { rewrite Z.pow_add_r by lia. apply Z.mul_lt_mono_pos_r; lia. }
  assert (H3 : 2 ^ (d - 1 + (E - z)) < 2 ^ (53 + (c - z))) by lia.
  apply Z.pow_lt_mono_r_iff in H3; lia.
Qed.

(** First phase of [binary_round_aux]: shifting down to the format's
    exponent and rounding to nearest stays below every bound [K * 2^c] of
    the format. *)
Lemma shr_fexp_round_le (M : positive) (E K c : Z) :
  0 < K < 2 ^ 53 -> -1074 <= c ->
  dyadic_le (Zpos M) E K c ->
  let '(mrs, e1) := shr_fexp prec emax (Zpos M) E loc_Exact in
  let R := round_nearest_even (shr_m mrs) (loc_of_shr_record mrs) in
  0 <= R /\ dyadic_le R e1 K c.
Proof.
  intros HK Hc Hle.
  pose proof (dyadic_le_digits M E K c HK Hle) as Hdig.
  unfold shr_fexp. cbn [shr_record_of_loc Zdigits2].
  rewrite fexp_binary64.
  set (d := Zpos (digits2_pos M)) in *.
  destruct (Z.max (d + E - 53) (-1074) - E) as [|p|p] eqn:Hn;
    cbn [shr shr_m loc_of_shr_record round_nearest_even];
    try (split; [lia | exact Hle]).
  assert (He1 : E + Zpos p <= c) by lia.
  pose proof (pow2_pos p) as Hp.
  pose proof (iter_shr_1_m p (Build_shr_record (Zpos M) false false)) as Hm.
  cbn [shr_m] in Hm. specialize (Hm ltac:(lia)).
  set (out := iter_pos shr_1 p (Build_shr_record (Zpos M) false false)) in *.
  pose proof (round_nearest_even_le (shr_m out) (loc_of_shr_record out)) as HR.
  assert (Hq : 0 <= Zpos M / 2 ^ Zpos p) by (apply Z.div_pos; lia).
  split; [lia|].
  apply (dyadic_le_at E); [lia | lia |].
  apply (dyadic_le_at E) in Hle; [ | lia | lia].
  replace (E - E) with 0 in Hle by lia. rewrite Z.mul_1_r in Hle.
  replace (E + Zpos p - E) with (Zpos p) by lia.
  replace (c - E) with ((c - (E + Zpos p)) + Zpos p) in * by lia.
  rewrite Z.pow_add_r in * by lia.
  set (K' := K * 2 ^ (c - (E + Zpos p))) in *.
  rewrite Z.mul_assoc in *. fold K' in Hle |- *.
  apply Z.mul_le_mono_nonneg_r; [lia|].
  pose proof (Z.div_mod (Zpos M) (2 ^ Zpos p) ltac:(lia)) as Hdm.
  pose proof (Z.mod_pos_bound (Zpos M) (2 ^ Zpos p) Hp) as Hmb.
  destruct (Z.eq_dec (Zpos M mod 2 ^ Zpos p) 0) as [H0|H0].
  - assert (Hout : out = Build_shr_record (Zpos M / 2 ^ Zpos p) false false)
      by (apply iter_shr_1_exact; lia).
    rewrite Hout. cbn [shr_m loc_of_shr_record round_nearest_even]. nia.
  - assert (Zpos M / 2 ^ Zpos p < K') by nia. lia.
Qed.

(** Second phase: the renormalising shift only truncates, and below a
    bound of the format it does not overflow. *)
Lemma shr_fexp_renorm_le (R e1 K c : Z) :
  0 < K < 2 ^ 53 -> -1074 <= c <= 918 ->
  0 <= R -> dyadic_le R e1 K c ->
  let '(mrs, e2) := shr_fexp prec emax R e1 loc_Exact in
  match shr_m mrs with
  | Z0 => True
  | Zpos m => e2 <= 971 /\ dyadic_le (Zpos m) e2 K c
  | Zneg _ => False
  end.
Proof.
  intros HK Hc HR Hle.
  unfold shr_fexp. cbn [shr_record_of_loc]. rewrite fexp_binary64.
  destruct R as [|r|r]; [ | | lia].
  - cbn [Zdigits2].
    destruct (Z.max (0 + e1 - 53) (-1074) - e1) as [|p|p]; cbn [shr shr_m]; trivial.
    rewrite iter_shr_1_m by (cbn [shr_m]; lia). cbn [shr_m].
    rewrite Z.div_0_l; [trivial | pose proof (pow2_pos p); lia].
  - pose proof (dyadic_le_digits r e1 K c HK Hle) as Hdig.
    cbn [Zdigits2]. set (d := Zpos (digits2_pos r)) in *.
    assert (Hd : 1 <= d) by (unfold d; lia).
    destruct (Z.max (d + e1 - 53) (-1074) - e1) as [|p|p] eqn:Hn;
      cbn [shr shr_m]; try (split; [lia | exact Hle]).
    rewrite iter_shr_1_m by (cbn [shr_m]; lia). cbn [shr_m].
    pose proof (pow2_pos p) as Hp.
    assert (Hq : 0 <= Zpos r / 2 ^ Zpos p) by (apply Z.div_pos; lia).
    destruct (Zpos r / 2 ^ Zpos p) as [|m|m] eqn:Hm; [trivial | | lia].
    split; [lia|].
    set (z := Z.min e1 c).
    apply (dyadic_le_at z); [unfold z; lia | unfold z; lia |].
    apply (dyadic_le_at z) in Hle; [ | unfold z; lia | unfold z; lia].
    replace (e1 + Zpos p - z) with (Zpos p + (e1 - z)) by lia.
    rewrite Z.pow_add_r by (unfold z; lia).
    assert (Hz : 0 < 2 ^ (e1 - z)) by (apply Z.pow_pos_nonneg; unfold z; lia).
    pose proof (Z.mul_div_le (Zpos r) (2 ^ Zpos p) Hp) as Hdl.
    rewrite Hm in Hdl.
    apply Z.le_trans with (Zpos r * 2 ^ (e1 - z)); [ | exact Hle].
    rewrite Z.mul_assoc. apply Z.mul_le_mono_nonneg_r; lia.
Qed.

(** Rounding a positive dyadic number never carries it above a bound
    [K * 2^c] that the format represents, nor to an infinity. *)
Lemma binary_round_aux_le (M : positive) (E K c : Z) :
  0 < K < 2 ^ 53 -> -1074 <= c <= 918 ->
  dyadic_le (Zpos M) E K c ->
  match binary_round_aux prec emax false (Zpos M) E loc_Exact with
  | S754_zero false => True
  | S754_finite false m e => dyadic_le (Zpos m) e K c
  | _ => False
  end.
Proof.
  intros HK Hc Hle.
  pose proof (shr_fexp_round_le M E K c HK ltac:(lia) Hle) as H1.
  unfold binary_round_aux.
  destruct (shr_fexp prec emax (Zpos M) E loc_Exact) as [mrs e1].
  cbv zeta in H1. destruct H1 as [HR Hle1].
  pose proof (shr_fexp_renorm_le _ e1 K c HK Hc HR Hle1) as H2.
  destruct (shr_fexp prec emax _ e1 loc_Exact) as [mrs2 e2].
  destruct (shr_m mrs2) as [|m|m]; [trivial | | contradiction].
  destruct H2 as [He2 Hle2].
  replace (e2 <=? emax - prec) with true; [exact Hle2|].
  symmetry; apply Z.leb_le. change (emax - prec) with 971. exact He2.
Qed.

End RoundingFacts.

(* ===================================================================== *)
(** * Scaling a fraction to a percentage *)
(* ===================================================================== *)

Section Percent.

Lemma f64_of_Z_1 : f64_of_Z 1 = S754_finite false 4503599627370496 (-52).
Proof. reflexivity. Qed.

Lemma f64_of_Z_100 : f64_of_Z 100 = S754_finite false 7036874417766400 (-46).
Proof. reflexivity. Qed.

Lemma SFleb_finite_pos (m1 m2 : positive) (e1 e2 : Z) :
  SFleb (S754_finite false m1 e1) (S754_finite false m2 e2)
  = match e1 ?= e2 with
    | Lt => true
    | Gt => false
    | Eq => match (m1 ?= m2)%positive with Gt => false | _ => true end
    end.
Proof.
  unfold SFleb, SFcompare, Pos.compare.
  destruct (e1 ?= e2); try reflexivity;
    destruct (Pos.compare_cont Eq m1 m2); reflexivity.
Qed.

(** A float64 in [0,1] is a zero or a positive [m * 2^e] with
    [m <= 2^-e]. *)
Lemma unit_interval_inv (h : float64) :
  is_float64 h ->
  f64_leb f64_zero h = true -> f64_leb h (f64_of_Z 1) = true ->
  (exists s, h = S754_zero s)
  \/ (exists m e, h = S754_finite false m e /\ e <= -52 /\ Zpos m <= 2 ^ (- e)).
Proof.
  intros Hv H0 H1. rewrite f64_of_Z_1 in H1.
  destruct h as [s|s| |s m e].
  - left. exists s. reflexivity.
  - destruct s; [discriminate H0 | discriminate H1].
  - discriminate H0.
  - right. destruct s; [discriminate H0|].
    exists m, e. split; [reflexivity|].
    unfold is_float64 in Hv. cbn [valid_binary] in Hv.
    unfold bounded, canonical_mantissa in Hv.
    apply andb_prop in Hv. destruct Hv as [Hc _].
    apply Z.eqb_eq in Hc. rewrite fexp_binary64 in Hc.
    pose proof (digits2_pos_bounds m) as [_ Hd].
    assert (Hd53 : Zpos (digits2_pos m) <= 53) by lia.
    assert (Hm : Zpos m < 2 ^ 53).
    { eapply Z.lt_le_trans; [exact Hd|].
      apply Z.pow_le_mono_r; lia. }
    unfold f64_leb in H1. rewrite SFleb_finite_pos in H1.
    destruct (Z.compare_spec e (-52)) as [He|He|He]; [ | | discriminate H1].
    + subst e. split; [lia|].
      change (2 ^ (- -52)) with (Zpos 4503599627370496).
      destruct (Pos.compare_spec m 4503599627370496) as [Hcmp|Hcmp|Hcmp].
      * subst m. apply Z.le_refl.
      * apply Z.lt_le_incl. exact Hcmp.
      * discriminate H1.
    + split; [lia|].
      apply Z.le_trans with (2 ^ 53); [lia|].
      apply Z.pow_le_mono_r; lia.
Qed.

(** The product of a float64 in [0,1] by 100 is a float64 in [0,100]: its
    integer part exists, lies in [0,100] and is the floor of the product. *)
Lemma f64_mul_100_unit (h : float64) :
  is_float64 h ->
  f64_leb f64_zero h = true -> f64_leb h (f64_of_Z 1) = true ->
  exists t, f64_trunc (f64_mul h (f64_of_Z 100)) = Some t
            /\ 0 <= t <= 100
            /\ t = Qfloor (f64_val (f64_mul h (f64_of_Z 100))).
Proof.
  intros Hv H0 H1.
  destruct (unit_interval_inv h Hv H0 H1) as [[s ->]|(m & e & -> & He & Hm)].
  - exists 0. rewrite f64_of_Z_100. cbn. repeat split; lia.
  - rewrite f64_of_Z_100. unfold f64_mul. cbn [SFmul xorb].
    pose proof (binary_round_aux_le (m * 7036874417766400) (e + -46) 25 2
                  ltac:(split; [lia | reflexivity]) ltac:(lia)) as Hr.
    assert (Hle : dyadic_le (Zpos (m * 7036874417766400)) (e + -46) 25 2).
    { apply (dyadic_le_at (e + -46)); [lia | lia |].
      replace (e + -46 - (e + -46)) with 0 by lia.
      replace (2 - (e + -46)) with (48 + - e) by lia.
      rewrite Z.pow_add_r by lia. rewrite Pos2Z.inj_mul.
      change (2 ^ 48) with 281474976710656. change (2 ^ 0) with 1.
      assert (0 < 2 ^ (- e)) by (apply Z.pow_pos_nonneg; lia). lia. }
    specialize (Hr Hle).
    destruct (binary_round_aux prec emax false _ _ loc_Exact) as [[|]|s| |[|] m' e'];
      try contradiction.
    + exists 0. cbn. repeat split; lia.
    + destruct e' as [|p|p].
      * apply (proj1 (dyadic_le_at 0 (Zpos m') 0 25 2 ltac:(lia) ltac:(lia))) in Hr.
        exists (Zpos m' * 2 ^ 0). cbn [f64_trunc f64_val].
        rewrite Qfloor_Z. change (2 ^ (2 - 0)) with 4 in Hr.
        change (2 ^ (0 - 0)) with 1 in Hr. change (2 ^ 0) with 1.
        repeat split; lia.
      * apply (proj1 (dyadic_le_at 0 (Zpos m') (Zpos p) 25 2
                         ltac:(lia) ltac:(lia))) in Hr.
        exists (Zpos m' * 2 ^ Zpos p). cbn [f64_trunc f64_val].
        rewrite Qfloor_Z. change (2 ^ (2 - 0)) with 4 in Hr.
        rewrite Z.sub_0_r in Hr.
        pose proof (pow2_pos p). repeat split; lia.
      * apply (proj1 (dyadic_le_at (Zneg p) (Zpos m') (Zneg p) 25 2
                         ltac:(lia) ltac:(lia))) in Hr.
        replace (Zneg p - Zneg p) with 0 in Hr by lia.
        replace (2 - Zneg p) with (2 + Zpos p) in Hr by lia.
        rewrite Z.pow_add_r in Hr by lia. change (2 ^ 2) with 4 in Hr.
        change (2 ^ 0) with 1 in Hr.
        pose proof (pow2_pos p) as Hp.
        exists (Zpos m' / 2 ^ Zpos p). cbn [f64_trunc f64_val Qfloor].
        rewrite Z.quot_div_nonneg by lia.
        rewrite Pos2Z.inj_pow. repeat split.
        -- apply Z.div_pos; lia.
        -- apply Z.div_le_upper_bound; lia.
Qed.

(** On an input in [0,1] the conversion [int(h * 100)] is representable
    on both word sizes: no implementation-dependent result is involved. *)
Lemma f64_to_int_pct (ws : word_size) (unrep : float64 -> Z) (h : float64) :
  is_float64 h ->
  f64_leb f64_zero h = true -> f64_leb h (f64_of_Z 1) = true ->
  f64_to_int ws unrep (f64_mul h (f64_of_Z 100))
  = Qfloor (f64_val (f64_mul h (f64_of_Z 100)))
  /\ 0 <= f64_to_int ws unrep (f64_mul h (f64_of_Z 100)) <= 100.
Proof.
  intros Hv H0 H1.
  destruct (f64_mul_100_unit h Hv H0 H1) as (t & Ht & Hb & Hf).
  unfold f64_to_int. rewrite Ht.
  assert (Hin : in_int ws t = true).
  { unfold in_int, int_min, int_max.
    apply andb_true_intro; split; apply Z.leb_le; destruct ws; cbn; lia. }
  rewrite Hin. split; [exact Hf | exact Hb].
Qed.

End Percent.

(* ===================================================================== *)
(** * Data model *)
(* ===================================================================== *)

Local Open Scope string_scope.

(** ** [type Weather struct]: the Weather Record *)
Module Weather.
Record t := mk {
    Temperature : float64;
    Pressure : float64;
    Humidity : Z;
    Weather : string;
    WindSpeed : float64;
    WindDeg : float64;
    Cloudiness : Z;
    Rainfall : float64;
    Snowfall : float64;
    UV : float64
  }.
End Weather.

(** ** Package [owm] (github.com/briandowns/openweathermap)

    The package is a dependency ([go.mod]), not part of the repository.
    These are its struct declarations, cut down to the fields the program
    reads: [CurrentWeatherData] (current conditions) and [UV]. *)
Module owm.
Module Main.
Record t := mk { Temp : float64; Pressure : float64; Humidity : Z }.
End Main.
Module Wind.
Record t := mk { Speed : float64; Deg : float64 }.
End Wind.
Module Clouds.
Record t := mk { All : Z }.
End Clouds.
Module Rain.
Record t := mk { ThreeH : float64 }.
End Rain.
(** An element of [CurrentWeatherData.Weather]. *)
Module Weather.
Record t := mk { Main : string }.
End Weather.
Module CurrentWeatherData.
Record t := mk {
      Weather : list owm.Weather.t;
      Main : owm.Main.t;
      Wind : owm.Wind.t;
      Clouds : owm.Clouds.t;
      Rain : owm.Rain.t
    }.
End CurrentWeatherData.
Module UV.
Record t := mk { Value : float64 }.
End UV.
End owm.

(** ** [type DarkSkyForecast struct] and its anonymous [Currently] struct *)
Module Currently.
Record t := mk {
    Time : Z;
    Summary : string;
    Icon : string;
    Temperature : float64;
    Pressure : float64;
    Humidity : float64;
    WindSpeed : float64;
    WindBearing : Z;
    PrecipIntensity : float64;
    CloudCover : float64;
    UVIndex : float64
  }.
End Currently.

Module DarkSkyForecast.
Record t := mk {
    Latitude : float64;
    Longitude : float64;
    TimeZone : string;
    Currently : Currently.t
  }.
End DarkSkyForecast.

(** ** Run-time panics *)
Inductive runtime_error :=
| IndexOutOfRange (index len : Z).

(** The result of an expression that may panic. *)
Inductive result (A : Type) :=
| Ok (a : A)
| Panic (e : runtime_error).
Arguments Ok {A} a.
Arguments Panic {A} e.

(** [s[i]] on a slice: a run-time panic when [i] is out of range. *)
Definition index {A : Type} (s : list A) (i : nat) : result A :=
  match nth_error s i with
  | Some x => Ok x
  | None => Panic (IndexOutOfRange (Z.of_nat i) (Z.of_nat (List.length s)))
  end.

(* ===================================================================== *)
(** * The provider adapters *)
(* ===================================================================== *)

(** [func OWMToWeather(w *owm.CurrentWeatherData, uv *owm.UV) *Weather]
    (the same text in both source files). Both pointers come from a
    successful [InitOpenWeatherMap] and are not nil. [Snowfall] is not
    listed in the composite literal: it keeps the zero value. *)
Definition OWMToWeather (w : owm.CurrentWeatherData.t) (uv : owm.UV.t)
  : result Weather.t :=
  match index (owm.CurrentWeatherData.Weather w) 0 with
  | Panic e => Panic e
  | Ok w0 =>
      Ok {| Weather.Temperature := owm.Main.Temp (owm.CurrentWeatherData.Main w);
            Weather.Pressure := owm.Main.Pressure (owm.CurrentWeatherData.Main w);
            Weather.Humidity := owm.Main.Humidity (owm.CurrentWeatherData.Main w);
            Weather.Weather := owm.Weather.Main w0;
            Weather.WindSpeed := owm.Wind.Speed (owm.CurrentWeatherData.Wind w);
            Weather.WindDeg := owm.Wind.Deg (owm.CurrentWeatherData.Wind w);
            Weather.Cloudiness := owm.Clouds.All (owm.CurrentWeatherData.Clouds w);
            Weather.Rainfall :=
              f64_div (owm.Rain.ThreeH (owm.CurrentWeatherData.Rain w)) (f64_of_Z 3);
            Weather.Snowfall := f64_zero;
            Weather.UV := owm.UV.Value uv |}
  end.

Section Platform.

(** The word size of the build and the result the implementation gives to
    a float-to-int conversion whose value [int] cannot represent. *)
Variable ws : word_size.
Variable unrep : float64 -> Z.

(** [func DSToWeather(f *DarkSkyForecast) *Weather] (the same text in both
    source files). [Snowfall] and [UV] are not listed in the composite
    literal: they keep the zero value. *)
Definition DSToWeather (f : DarkSkyForecast.t) : Weather.t :=
  let c := DarkSkyForecast.Currently f in
  {| Weather.Temperature := Currently.Temperature c;
     Weather.Pressure := Currently.Pressure c;
     Weather.Humidity :=
       f64_to_int ws unrep (f64_mul (Currently.Humidity c) (f64_of_Z 100));
     Weather.Weather := Currently.Summary c;
     Weather.WindSpeed := Currently.WindSpeed c;
     Weather.WindDeg := f64_of_Z (Currently.WindBearing c);
     Weather.Cloudiness :=
       f64_to_int ws unrep (f64_mul (Currently.CloudCover c) (f64_of_Z 100));
     Weather.Rainfall := Currently.PrecipIntensity c;
     Weather.Snowfall := f64_zero;
     Weather.UV := f64_zero |}.

End Platform.

(* ===================================================================== *)
(** * The JSON decoder, as [CallDarkSkyForecast] uses it *)
(* ===================================================================== *)

(** Package [encoding/json] belongs to the Go standard library; this is
    the documented behaviour of [Decoder.Decode] into a struct, on the
    JSON value the body starts with. *)

(** A JSON number literal [(-1)^neg * mant * 10^exp10]; [integral] says
    that the literal has neither a fraction nor an exponent. *)
Record number := mk_number {
  num_neg : bool;
  num_mant : N;
  num_exp10 : Z;
  num_integral : bool
}.

Inductive json :=
| JNull
| JBool (b : bool)
| JNumber (n : number)
| JString (s : string)
| JArray (elems : list json)
| JObject (members : list (string * json)).

Inductive json_kind := KNull | KBool | KNumber | KString | KArray | KObject.

Inductive json_error :=
| SyntaxError
| UnmarshalTypeError (value : json_kind) (field : string).

(** The float64 a number literal denotes ([strconv.ParseFloat]): the
    nearest float64; [None] when it overflows. *)
Definition number_to_f64 (n : number) : option float64 :=
  let x :=
    match num_mant n with
    | N0 => S754_zero (num_neg n)
    | Npos p =>
        match num_exp10 n with
        | Zneg k =>
            SFdiv prec emax (S754_finite (num_neg n) p 0)
                  (S754_finite false (10 ^ k)%positive 0)
        | e =>
            let v := Zpos p * 10 ^ e in
            binary_normalize prec emax (if num_neg n then - v else v) 0 false
        end
    end in
  match x with
  | S754_infinity _ => None
  | _ => Some x
  end.

(** The integer an integral literal denotes ([strconv.ParseInt]), when it
    fits in [bits] bits. *)
Definition number_to_int (bits : Z) (n : number) : option Z :=
  if num_integral n then
    let v := if num_neg n then - Z.of_N (num_mant n) else Z.of_N (num_mant n) in
    if ((- 2 ^ (bits - 1) <=? v) && (v <=? 2 ^ (bits - 1) - 1))%Z then Some v
    else None
  else None.

(** What storing a JSON value into a field does: [null] leaves the field
    as it is, a value of the field's kind sets it, any other value is a
    type error (the decoder remembers the first one and goes on). *)
Inductive stored (A : Type) :=
| Keep
| Store (a : A)
| Mismatch (k : json_kind).
Arguments Keep {A}.
Arguments Store {A} a.
Arguments Mismatch {A} k.

Definition kind_of (v : json) : json_kind :=
  match v with
  | JNull => KNull
  | JBool _ => KBool
  | JNumber _ => KNumber
  | JString _ => KString
  | JArray _ => KArray
  | JObject _ => KObject
  end.

Definition store_float64 (v : json) : stored float64 :=
  match v with
  | JNull => Keep
  | JNumber n =>
      match number_to_f64 n with
      | Some x => Store x
      | None => Mismatch KNumber
      end
  | _ => Mismatch (kind_of v)
  end.

Definition store_int (bits : Z) (v : json) : stored Z :=
  match v with
  | JNull => Keep
  | JNumber n =>
      match number_to_int bits n with
      | Some x => Store x
      | None => Mismatch KNumber
      end
  | _ => Mismatch (kind_of v)
  end.

Definition store_string (v : json) : stored string :=
  match v with
  | JNull => Keep
  | JString s => Store s
  | _ => Mismatch (kind_of v)
  end.

(** Object keys are matched to the fields' [json:] names exactly or,
    failing that, up to letter case, where the long s (U+017F) counts as
    an s and the Kelvin sign (U+212A) as a k. Strings are UTF-8 bytes. *)
Definition is_byte (a : ascii) (n : nat) : bool := (nat_of_ascii a =? n)%nat.

Definition lower_ascii (a : ascii) : ascii :=
  let n := nat_of_ascii a in
  if ((65 <=? n) && (n <=? 90))%nat then ascii_of_nat (n + 32) else a.

Fixpoint fold_key (s : string) : string :=
  match s with
  | EmptyString => EmptyString
  | String a r =>
      match r with
      | EmptyString => String (lower_ascii a) EmptyString
      | String b r1 =>
          if is_byte a 197 && is_byte b 191 then String "s" (fold_key r1)
          else
            match r1 with
            | EmptyString => String (lower_ascii a) (fold_key r)
            | String c r2 =>
                if is_byte a 226 && is_byte b 132 && is_byte c 170
                then String "k" (fold_key r2)
                else String (lower_ascii a) (fold_key r)
            end
      end
  end.

Definition key_is (name key : string) : bool :=
  String.eqb (fold_key key) (fold_key name).

(** One member [key: v] of the [currently] object, stored into the struct
    [c]; the second component is the type error it raised, if any. A key
    that names no field is skipped. *)
Definition store_Currently_member (ws : word_size) (c : Currently.t)
  (key : string) (v : json) : Currently.t * option json_error :=
  let 'Currently.mk tm su ic te pr hu wsp wb pi cc uv := c in
  let put {A : Type} (name : string) (r : stored A) (k : A -> Currently.t) :=
    match r with
    | Keep => (c, None)
    | Store a => (k a, None)
    | Mismatch kd => (c, Some (UnmarshalTypeError kd name))
    end in
  if key_is "time" key then
    put "time" (store_int 64 v)
        (fun x => Currently.mk x su ic te pr hu wsp wb pi cc uv)
  else if key_is "summary" key then
    put "summary" (store_string v)
        (fun x => Currently.mk tm x ic te pr hu wsp wb pi cc uv)
  else if key_is "icon" key then
    put "icon" (store_string v)
        (fun x => Currently.mk tm su x te pr hu wsp wb pi cc uv)
  else if key_is "temperature" key then
    put "temperature" (store_float64 v)
        (fun x => Currently.mk tm su ic x pr hu wsp wb pi cc uv)
  else if key_is "pressure" key then
    put "pressure" (store_float64 v)
        (fun x => Currently.mk tm su ic te x hu wsp wb pi cc uv)
  else if key_is "humidity" key then
    put "humidity" (store_float64 v)
        (fun x => Currently.mk tm su ic te pr x wsp wb pi cc uv)
  else if key_is "windSpeed" key then
    put "windSpeed" (store_float64 v)
        (fun x => Currently.mk tm su ic te pr hu x wb pi cc uv)
  else if key_is "windBearing" key then
    put "windBearing" (store_int (int_bits ws) v)
        (fun x => Currently.mk tm su ic te pr hu wsp x pi cc uv)
  else if key_is "precipIntensity" key then
    put "precipIntensity" (store_float64 v)
        (fun x => Currently.mk tm su ic te pr hu wsp wb x cc uv)
  else if key_is "cloudCover" key then
    put "cloudCover" (store_float64 v)
        (fun x => Currently.mk tm su ic te pr hu wsp wb pi x uv)
  else if key_is "uvIndex" key then
    put "uvIndex" (store_float64 v)
        (fun x => Currently.mk tm su ic te pr hu wsp wb pi cc x)
  else (c, None).

(** The first error wins. *)
Definition first_error (e1 e2 : option json_error) : option json_error :=
  match e1 with
  | Some _ => e1
  | None => e2
  end.

(** The members of an object, stored one after the other (a repeated key
    overwrites). *)
Definition store_members {S : Type}
  (store : S -> string -> json -> S * option json_error)
  (members : list (string * json)) (s : S) : S * option json_error :=
  fold_left
    (fun (acc : S * option json_error) (kv : string * json) =>
       let '(s', e') := store (fst acc) (fst kv) (snd kv) in
       (s', first_error (snd acc) e'))
    members (s, None).

Definition store_Currently (ws : word_size) (v : json) (c : Currently.t)
  : Currently.t * option json_error :=
  match v with
  | JNull => (c, None)
  | JObject members => store_members (store_Currently_member ws) members c
  | _ => (c, Some (UnmarshalTypeError (kind_of v) "currently"))
  end.

Definition store_DarkSkyForecast_member (ws : word_size) (f : DarkSkyForecast.t)
  (key : string) (v : json) : DarkSkyForecast.t * option json_error :=
  let 'DarkSkyForecast.mk la lo tz cu := f in
  let put {A : Type} (name : string) (r : stored A) (k : A -> DarkSkyForecast.t) :=
    match r with
    | Keep => (f, None)
    | Store a => (k a, None)
    | Mismatch kd => (f, Some (UnmarshalTypeError kd name))
    end in
  if key_is "latitude" key then
    put "latitude" (store_float64 v) (fun x => DarkSkyForecast.mk x lo tz cu)
  else if key_is "longitude" key then
    put "longitude" (store_float64 v) (fun x => DarkSkyForecast.mk la x tz cu)
  else if key_is "timezone" key then
    put "timezone" (store_string v) (fun x => DarkSkyForecast.mk la lo x cu)
  else if key_is "currently" key then
    let '(cu', e) := store_Currently ws v cu in
    (DarkSkyForecast.mk la lo tz cu', e)
  else (f, None).

(** The zero value of [DarkSkyForecast]: what [var f DarkSkyForecast]
    declares. *)
Definition zero_Currently : Currently.t :=
  Currently.mk 0 "" "" f64_zero f64_zero f64_zero f64_zero 0 f64_zero f64_zero
               f64_zero.

Definition zero_DarkSkyForecast : DarkSkyForecast.t :=
  DarkSkyForecast.mk f64_zero f64_zero "" zero_Currently.

(** What the decoder finds in a response body: a JSON value, or bytes
    that are not one (a syntax error, an empty or truncated body). *)
Inductive body :=
| JSONText (v : json)
| NotJSON.

(** [decoder.Decode(&f)] on a zero [f]: the error, if any, and [f]
    afterwards. *)
Definition Decode (ws : word_size) (b : body)
  : DarkSkyForecast.t * option json_error :=
  match b with
  | NotJSON => (zero_DarkSkyForecast, Some SyntaxError)
  | JSONText JNull => (zero_DarkSkyForecast, None)
  | JSONText (JObject members) =>
      store_members (store_DarkSkyForecast_member ws) members
                    zero_DarkSkyForecast
  | JSONText v =>
      (zero_DarkSkyForecast, Some (UnmarshalTypeError (kind_of v) "DarkSkyForecast"))
  end.

(* ===================================================================== *)
(** * Effects: log, standard output, measurements, exit and panic *)
(* ===================================================================== *)

(** A Go [error] value, by the package that made it. *)
Inductive error :=
| ErrHTTP (reason : string)
| ErrJSON (e : json_error)
| ErrOWM (reason : string)
| ErrTag (reason : string)
| ErrExporter (reason : string).

(** The two loggers of the program: package [log] ([src/main.go], and the
    start-up of the other file) and the zap [logger]. *)
Inductive logger_kind := StdLog | Zap.
Inductive level := ErrorLevel | FatalLevel.

Record LogEntry := mk_entry {
  entry_logger : logger_kind;
  entry_level : level;
  entry_format : string;
  entry_error : option error
}.

(** An argument of [fmt.Printf]. *)
Inductive printf_arg :=
| PString (s : string)
| PFloat (x : float64)
| PInt (n : Z).

(** A measure ([stats.Float64] or [stats.Int64]): name, description,
    unit. *)
Inductive measure_kind := Float64Measure | Int64Measure.

Record Measure := mk_measure {
  measure_kind_of : measure_kind;
  measure_name : string;
  measure_description : string;
  measure_unit : string
}.

(** A measurement [m.M(v)]. *)
Inductive Measurement :=
| Float64M (m : Measure) (v : float64)
| Int64M (m : Measure) (v : Z).

(** One call of [stats.Record]: the tags of its context and the
    measurements submitted. *)
Record Recording := mk_recording {
  rec_tags : list (string * string);
  rec_measurements : list Measurement
}.

(** The world the program acts on: the entries written through a logger
    ([log], wherever the logger sends them), the calls of [fmt.Printf]
    ([stdout]) and the calls of [stats.Record] ([recorded]). *)
Record World := mk_world {
  log : list LogEntry;
  stdout : list (string * list printf_arg);
  recorded : list Recording
}.

Definition empty_world : World := mk_world [] [] [].

(** How a computation ends: it returns, the process exits ([os.Exit],
    through a [Fatal] logging call) or it panics. *)
Inductive outcome (A : Type) :=
| Returns (a : A)
| Exits (code : Z)
| Panics (e : runtime_error).
Arguments Returns {A} a.
Arguments Exits {A} code.
Arguments Panics {A} e.

Definition IO (A : Type) : Type := World -> outcome A * World.

Definition ret {A : Type} (a : A) : IO A := fun w => (Returns a, w).

Definition bind {A B : Type} (c : IO A) (k : A -> IO B) : IO B :=
  fun w =>
    match c w with
    | (Returns a, w') => k a w'
    | (Exits code, w') => (Exits code, w')
    | (Panics e, w') => (Panics e, w')
    end.

Declare Scope io_scope.
Delimit Scope io_scope with io.
Notation "x <- c ;; k" := (bind c (fun x => k))
  (at level 61, c at next level, right associativity) : io_scope.
Notation "c ;; k" := (bind c (fun _ => k))
  (at level 61, right associativity) : io_scope.
Local Open Scope io_scope.

Definition write_log (e : LogEntry) : IO unit :=
  fun w => (Returns tt, mk_world (log w ++ [e]) (stdout w) (recorded w)).

Definition exit {A : Type} (code : Z) : IO A := fun w => (Exits code, w).

Definition panic {A : Type} (e : runtime_error) : IO A := fun w => (Panics e, w).

Definition of_result {A : Type} (r : result A) : IO A :=
  match r with
  | Ok a => ret a
  | Panic e => panic e
  end.

(** [log.Fatalf(format, err)] and [log.Fatal(text)]: print, then
    [os.Exit(1)]. *)
Definition log_Fatalf {A : Type} (format : string) (err : error) : IO A :=
  write_log (mk_entry StdLog FatalLevel format (Some err)) ;; exit 1.

Definition log_Fatal {A : Type} (text : string) : IO A :=
  write_log (mk_entry StdLog FatalLevel text None) ;; exit 1.

(** [logger.Errorf(format, err)]: an entry at error level. *)
Definition logger_Errorf (format : string) (err : error) : IO unit :=
  write_log (mk_entry Zap ErrorLevel format (Some err)).

(** [logger.Fatalf(format, err)]: an entry at fatal level, then
    [os.Exit(1)]. *)
Definition logger_Fatalf {A : Type} (format : string) (err : error) : IO A :=
  write_log (mk_entry Zap FatalLevel format (Some err)) ;; exit 1.

Definition fmt_Printf (format : string) (args : list printf_arg) : IO unit :=
  fun w => (Returns tt, mk_world (log w) (stdout w ++ [(format, args)]) (recorded w)).

(** [stats.Record(ctx, ms...)]. *)
Definition stats_Record (tags : list (string * string)) (ms : list Measurement)
  : IO unit :=
  fun w => (Returns tt,
            mk_world (log w) (stdout w) (recorded w ++ [mk_recording tags ms])).

(* ===================================================================== *)
(** * The network, as the program sees it *)
(* ===================================================================== *)

(** [http.Get(url)]: an error, or a response with a status and a body. *)
Inductive http_reply :=
| GetFailed (reason : string)
| GetOk (status : Z) (b : body).

(** [w.CurrentByCoordinates(loc)] of package [owm] fetches and decodes
    into [w]: from [w] before the call, [w] after it and the error
    returned. *)
Definition owm_fetch : Type :=
  owm.CurrentWeatherData.t -> owm.CurrentWeatherData.t * option error.

(** [uv.Current(coord)], likewise. *)
Definition owm_uv_fetch : Type := owm.UV.t -> owm.UV.t * option error.

(** The answers to the calls of [InitOpenWeatherMap], in order:
    [owm.NewCurrent], [w.CurrentByCoordinates], [owm.NewUV],
    [uv.Current]. *)
Record owm_boot := mk_owm_boot {
  boot_NewCurrent : error + owm.CurrentWeatherData.t;
  boot_CurrentByCoordinates : owm_fetch;
  boot_NewUV : error + owm.UV.t;
  boot_Current : owm_uv_fetch
}.

(** One firing of a ticker, with the network's answer to the fetch of
    that tick. *)
Inductive tick :=
| OWMTick (fetch : owm_fetch)
| DSTick (reply : http_reply).

(** What the poll loop holds between ticks. *)
Record loop_state := mk_loop_state {
  owmw : owm.CurrentWeatherData.t;
  owmuv : owm.UV.t
}.

(* ===================================================================== *)
(** * Package [tag] (go.opencensus.io v0.19.2) *)
(* ===================================================================== *)

(** The package is a dependency ([go.mod]). Its validation of key names
    and tag values: at most 255 bytes, each a printable ASCII character
    (32 to 126); a key name is moreover not empty. *)
Definition maxKeyLength : nat := 255.

Definition isASCII (s : string) : bool :=
  forallb (fun a => ((32 <=? nat_of_ascii a) && (nat_of_ascii a <=? 126))%nat)
          (list_ascii_of_string s).

Definition checkKeyName (name : string) : bool :=
  negb (String.length name =? 0)%nat
  && (String.length name <=? maxKeyLength)%nat && isASCII name.

Definition checkValue (v : string) : bool :=
  (String.length v <=? maxKeyLength)%nat && isASCII v.

(** [tag.NewKey(name)]. *)
Definition tag_NewKey (name : string) : error + string :=
  if checkKeyName name then inr name else inl (ErrTag "invalid key name").

(** [tag.New(context.Background(), tag.Upsert(k, v))]: the tags of the
    new context, or the error of the mutator. *)
Definition tag_New_Upsert (k v : string) : error + list (string * string) :=
  if checkValue v then inr [(k, v)] else inl (ErrTag "invalid value").

(* ===================================================================== *)
(** * [src/unnamed/part_000]: the poller that records measurements *)
(* ===================================================================== *)

Module V2.

Definition MeasureTemperature : string := "temperature".
Definition MeasurePressure : string := "pressure".
Definition MeasureHumidity : string := "humidity".
Definition MeasureWindSpeed : string := "windspeed".
Definition MeasureWindDeg : string := "winddeg".

Definition TemperatureUnit : string := "C".
Definition PressureUnit : string := "hPa".
Definition HumidityUnit : string := "%".
Definition WindSpeedUnit : string := "mps".
Definition WindDegUnit : string := "degree".

Definition MTemperature : Measure :=
  mk_measure Float64Measure MeasureTemperature "air temperature" TemperatureUnit.
Definition MPressure : Measure :=
  mk_measure Float64Measure MeasurePressure "barometric pressure" PressureUnit.
Definition MHumidity : Measure :=
  mk_measure Int64Measure MeasureHumidity "air humidity" HumidityUnit.
Definition MWindSpeed : Measure :=
  mk_measure Float64Measure MeasureWindSpeed "wind speed" WindSpeedUnit.
Definition MWindDeg : Measure :=
  mk_measure Float64Measure MeasureWindDeg "wind degree from North" WindDegUnit.

(** [KeyNodeId, _ = tag.NewKey("node_id")]: the error is dropped, the key
    is the zero key if there is one. *)
Definition KeyNodeId : string :=
  match tag_NewKey "node_id" with
  | inr k => k
  | inl _ => ""
  end.

(** [func RecordMeasurement(id string, w *Weather) error]. *)
Definition RecordMeasurement (id : string) (w : Weather.t) : IO (option error) :=
  match tag_New_Upsert KeyNodeId id with
  | inl err =>
      logger_Errorf "failed to insert key: %v" err ;;
      ret (Some err)
  | inr ctx =>
      stats_Record ctx
        [ Float64M MTemperature (Weather.Temperature w);
          Float64M MPressure (Weather.Pressure w);
          Int64M MHumidity (int64_of_int (Weather.Humidity w));
          Float64M MWindSpeed (Weather.WindSpeed w) ] ;;
      ret None
  end.

(** [func InitOpenWeatherMap()], which returns the two clients and an
    error.
    The results of [w.CurrentByCoordinates] and of [uv.Current] are not
    looked at. *)
Definition InitOpenWeatherMap (net : owm_boot)
  : IO (error + owm.CurrentWeatherData.t * owm.UV.t) :=
  match boot_NewCurrent net with
  | inl err =>
      logger_Errorf
        "failed to initialize OpenWeatherMap current weather data: %v" err ;;
      ret (inl err)
  | inr w =>
      let w := fst (boot_CurrentByCoordinates net w) in
      match boot_NewUV net with
      | inl err =>
          logger_Errorf "failed to initialize OpenWeatherMap UV data: %s" err ;;
          ret (inl err)
      | inr uv =>
          let uv := fst (boot_Current net uv) in
          ret (inr (w, uv))
      end
  end.

(** [func InitExporter() *stackdriver.Exporter], on the answer of
    [stackdriver.NewExporter]. *)
Definition InitExporter (answer : option error) : IO unit :=
  match answer with
  | Some _ => log_Fatal "failed to initialize "
  | None => ret tt
  end.

Section Platform.

Variable ws : word_size.
Variable unrep : float64 -> Z.

(** [func CallDarkSkyForecast()], which returns the forecast and an
    error, on the answer of [http.Get]. *)
Definition CallDarkSkyForecast (reply : http_reply)
  : IO (error + DarkSkyForecast.t) :=
  match reply with
  | GetFailed reason =>
      logger_Errorf "failed to call DarkSky forecast API: %s" (ErrHTTP reason) ;;
      ret (inl (ErrHTTP reason))
  | GetOk _ b =>
      match Decode ws b with
      | (_, Some e) =>
          logger_Errorf "failed to decode DarkSky reponse: %s" (ErrJSON e) ;;
          ret (inl (ErrJSON e))
      | (f, None) => ret (inr f)
      end
  end.

(** One turn of the [for { select { ... } }] of [main]: the case of the
    ticker that fired. [break] leaves the [select], that is, the turn. *)
Definition handle (t : tick) (st : loop_state) : IO loop_state :=
  match t with
  | OWMTick fetch =>
      let '(w', err) := fetch (owmw st) in
      let st' := mk_loop_state w' (owmuv st) in
      match err with
      | Some e =>
          logger_Errorf "failed to call current data from OpenWeatherMap: %v" e ;;
          ret st'
      | None =>
          w <- of_result (OWMToWeather w' (owmuv st)) ;;
          r <- RecordMeasurement "openweathermap" w ;;
          match r with
          | Some e => logger_Errorf "failed to record: %v" e
          | None => ret tt
          end ;;
          ret st'
      end
  | DSTick reply =>
      r <- CallDarkSkyForecast reply ;;
      match r with
      | inl e =>
          logger_Errorf "failed to call DarkSky: %v" e ;;
          ret st
      | inr f =>
          let w := DSToWeather ws unrep f in
          r <- RecordMeasurement "darksky" w ;;
          match r with
          | Some e => logger_Errorf "failed to record: %v" e
          | None => ret tt
          end ;;
          ret st
      end
  end.

(** The poll loop on the ticks that fire, in the order in which [select]
    takes them; once they are served it waits for the next one. *)
Fixpoint loop (ticks : list tick) (st : loop_state) : IO loop_state :=
  match ticks with
  | [] => ret st
  | t :: rest => st' <- handle t st ;; loop rest st'
  end.

(** [func main()]. The exporter and the views are set up with packages
    [stackdriver] and [view]; the deferred [exporter.Flush()] belongs to
    them too. *)
Definition main (net : owm_boot) (exporter : option error) (ticks : list tick)
  : IO loop_state :=
  r <- InitOpenWeatherMap net ;;
  match r with
  | inl err => logger_Fatalf "failed to initialize OpenWeatherMap: %v" err
  | inr (w, uv) =>
      InitExporter exporter ;;
      loop ticks (mk_loop_state w uv)
  end.

End Platform.

End V2.

(* ===================================================================== *)
(** * [src/main.go]: the plain poller *)
(* ===================================================================== *)

Module V1.

(** [func InitOpenWeatherMap()], which returns the two clients. *)
Definition InitOpenWeatherMap (net : owm_boot)
  : IO (owm.CurrentWeatherData.t * owm.UV.t) :=
  match boot_NewCurrent net with
  | inl err =>
      log_Fatalf
        "failed to initialize OpenWeatherMap current weather data: %s" err
  | inr w =>
      let w := fst (boot_CurrentByCoordinates net w) in
      match boot_NewUV net with
      | inl err =>
          log_Fatalf "failed to initialize OpenWeatherMap UV data: %s" err
      | inr uv =>
          let uv := fst (boot_Current net uv) in
          ret (w, uv)
      end
  end.

Definition print_Weather (format : string) (w : Weather.t) : IO unit :=
  fmt_Printf format
    [ PString (Weather.Weather w); PFloat (Weather.Temperature w);
      PFloat (Weather.Pressure w); PInt (Weather.Humidity w);
      PFloat (Weather.UV w) ].

Section Platform.

Variable ws : word_size.
Variable unrep : float64 -> Z.

(** [func CallDarkSkyForecast() *DarkSkyForecast], on the answer of
    [http.Get]. *)
Definition CallDarkSkyForecast (reply : http_reply) : IO DarkSkyForecast.t :=
  match reply with
  | GetFailed reason =>
      log_Fatalf "failed to call DarkSky forecast API: %s" (ErrHTTP reason)
  | GetOk _ b =>
      match Decode ws b with
      | (_, Some e) =>
          log_Fatalf "failed to decode DarkSky reponse: %s" (ErrJSON e)
      | (f, None) => ret f
      end
  end.

(** One turn of the [for { select { ... } }] of [main]. *)
Definition handle (t : tick) (st : loop_state) : IO loop_state :=
  match t with
  | OWMTick fetch =>
      let w' := fst (fetch (owmw st)) in
      w <- of_result (OWMToWeather w' (owmuv st)) ;;
      print_Weather
        "OWM: Weather: %s, Temp: %f, Pressure: %f, Humidity: %d, UV: %f\n" w ;;
      ret (mk_loop_state w' (owmuv st))
  | DSTick reply =>
      f <- CallDarkSkyForecast reply ;;
      print_Weather
        "DS: Weather: %s, Temp: %f, Pressure: %f, Humidity: %d, UV: %f\n"
        (DSToWeather ws unrep f) ;;
      ret st
  end.

Fixpoint loop (ticks : list tick) (st : loop_state) : IO loop_state :=
  match ticks with
  | [] => ret st
  | t :: rest => st' <- handle t st ;; loop rest st'
  end.

(** [func main()]. *)
Definition main (net : owm_boot) (ticks : list tick) : IO loop_state :=
  wuv <- InitOpenWeatherMap net ;;
  loop ticks (mk_loop_state (fst wuv) (snd wuv)).

End Platform.

End V1.

(* ===================================================================== *)
(** * The scenarios of the specification *)
(* ===================================================================== *)

(** Provider A: [{Main:{Temp:15.2,Pressure:1013,Humidity:60},
    Weather:[{Main:"Clouds"}], Wind:{Speed:3.1,Deg:180}, Clouds:{All:80},
    Rain:{ThreeH:1.5}}] and the UV value 4.2. *)
Definition scenario_owm : owm.CurrentWeatherData.t :=
  owm.CurrentWeatherData.mk
    [owm.Weather.mk "Clouds"]
    (owm.Main.mk (f64_of_decimal 152 1) (f64_of_Z 1013) 60)
    (owm.Wind.mk (f64_of_decimal 31 1) (f64_of_Z 180))
    (owm.Clouds.mk 80)
    (owm.Rain.mk (f64_of_decimal 15 1)).

Definition scenario_uv : owm.UV.t := owm.UV.mk (f64_of_decimal 42 1).

(** [{Temperature:15.2, Pressure:1013, Humidity:60, Weather:"Clouds",
    WindSpeed:3.1, WindDeg:180, Cloudiness:80, Rainfall:0.5, UV:4.2}]. *)
Definition scenario_owm_record : Weather.t :=
  Weather.mk (f64_of_decimal 152 1) (f64_of_Z 1013) 60 "Clouds"
             (f64_of_decimal 31 1) (f64_of_Z 180) 80 (f64_of_decimal 5 1)
             f64_zero (f64_of_decimal 42 1).

(** Provider B: [currently:{temperature:10.0, pressure:1000,
    humidity:0.55, summary:"Rain", windSpeed:2.0, windBearing:90,
    precipIntensity:0.3, cloudCover:0.9}]. *)
Definition scenario_ds : DarkSkyForecast.t :=
  DarkSkyForecast.mk f64_zero f64_zero ""
    (Currently.mk 0 "Rain" "" (f64_of_decimal 100 1) (f64_of_Z 1000)
                  (f64_of_decimal 55 2) (f64_of_decimal 20 1) 90
                  (f64_of_decimal 3 1) (f64_of_decimal 9 1) f64_zero).

(** [{Temperature:10.0, Pressure:1000, Humidity:55, Weather:"Rain",
    WindSpeed:2.0, WindDeg:90, Cloudiness:90, Rainfall:0.3}]. *)
Definition scenario_ds_record : Weather.t :=
  Weather.mk (f64_of_decimal 100 1) (f64_of_Z 1000) 55 "Rain"
             (f64_of_decimal 20 1) (f64_of_Z 90) 90 (f64_of_decimal 3 1)
             f64_zero f64_zero.

(** The same provider-B block as a JSON document. *)
Definition dec_lit (m : N) (k : positive) : json :=
  JNumber (mk_number false m (Zneg k) false).

Definition int_lit (m : N) : json := JNumber (mk_number false m 0 true).

Definition scenario_ds_json : json :=
  JObject
    [("currently",
      JObject [("temperature", dec_lit 100 1); ("pressure", int_lit 1000);
               ("humidity", dec_lit 55 2); ("summary", JString "Rain");
               ("windSpeed", dec_lit 20 1); ("windBearing", int_lit 90);
               ("precipIntensity", dec_lit 3 1); ("cloudCover", dec_lit 9 1)])].

(** An implementation's choice for unrepresentable conversions (the one
    of amd64: the smallest int64). *)
Definition unrep_amd64 : float64 -> Z := fun _ => - 2 ^ 63.

(* ===================================================================== *)
(** * Properties of the adapters *)
(* ===================================================================== *)

(** The whole record [OWMToWeather] builds from a response with a first
    weather element. *)
Lemma OWMToWeather_cons (w0 : owm.Weather.t) (ws' : list owm.Weather.t)
  (m : owm.Main.t) (wi : owm.Wind.t) (c : owm.Clouds.t) (r : owm.Rain.t)
  (uv : owm.UV.t) :
  OWMToWeather (owm.CurrentWeatherData.mk (w0 :: ws') m wi c r) uv
  = Ok (Weather.mk (owm.Main.Temp m) (owm.Main.Pressure m) (owm.Main.Humidity m)
                   (owm.Weather.Main w0) (owm.Wind.Speed wi) (owm.Wind.Deg wi)
                   (owm.Clouds.All c) (f64_div (owm.Rain.ThreeH r) (f64_of_Z 3))
                   f64_zero (owm.UV.Value uv)).
Proof. reflexivity. Qed.

Lemma OWMToWeather_nil (m : owm.Main.t) (wi : owm.Wind.t) (c : owm.Clouds.t)
  (r : owm.Rain.t) (uv : owm.UV.t) :
  OWMToWeather (owm.CurrentWeatherData.mk [] m wi c r) uv
  = Panic (IndexOutOfRange 0 0).
Proof. reflexivity. Qed.

(** C1. For every provider-A response with a weather element, the record
    of [OWMToWeather] has the raw integer humidity unchanged and, as
    rainfall, the raw 3-hour rainfall divided by 3; on the scenario of the
    specification with UV 4.2 the record is
    [{Temperature:15.2, Pressure:1013, Humidity:60, Weather:"Clouds",
    WindSpeed:3.1, WindDeg:180, Cloudiness:80, Rainfall:0.5, UV:4.2}]. *)
Theorem OWMToWeather_humidity_rainfall
  (w : owm.CurrentWeatherData.t) (uv : owm.UV.t)
  (Hvalid : owm.CurrentWeatherData.Weather w <> []) :
  (exists r : Weather.t,
      OWMToWeather w uv = Ok r
      /\ Weather.Humidity r = owm.Main.Humidity (owm.CurrentWeatherData.Main w)
      /\ Weather.Rainfall r
         = f64_div (owm.Rain.ThreeH (owm.CurrentWeatherData.Rain w)) (f64_of_Z 3))
  /\ OWMToWeather scenario_owm scenario_uv = Ok scenario_owm_record.
Proof.
  split; [ | reflexivity].
  destruct w as [[|w0 ws'] m wi c r]; [contradiction Hvalid; reflexivity|].
  rewrite OWMToWeather_cons. eexists. repeat split.
Qed.

Lemma OWMToWeather_humidity_rainfall_witness :
  (exists r : Weather.t,
      OWMToWeather scenario_owm scenario_uv = Ok r
      /\ Weather.Humidity r = 60
      /\ Weather.Rainfall r = f64_div (f64_of_decimal 15 1) (f64_of_Z 3))
  /\ OWMToWeather scenario_owm scenario_uv = Ok scenario_owm_record.
Proof.
  apply (OWMToWeather_humidity_rainfall scenario_owm scenario_uv).
  discriminate.
Defined.

(* ===================================================================== *)
(** * Rounding, from below *)
(* ===================================================================== *)

(** First phase of [binary_round_aux], from below: shifting down to the
    format's exponent and rounding to nearest stays above every number
    [K * 2^c] of the format that the exact value is above, and leaves a
    mantissa of at most [2^53] at an exponent of the format. *)
Lemma shr_fexp_round_ge (M : positive) (E K c : Z) :
  0 < K < 2 ^ 53 -> -1074 <= c ->
  dyadic_le K c (Zpos M) E ->
  let '(mrs, e1) := shr_fexp prec emax (Zpos M) E loc_Exact in
  let R := round_nearest_even (shr_m mrs) (loc_of_shr_record mrs) in
  dyadic_le K c R e1 /\ 0 < R <= 2 ^ 53 /\ -1074 <= e1.
Proof.
  intros HK Hc Hle.
  pose proof (digits2_pos_bounds M) as [Hdlo Hdhi].
  unfold shr_fexp. cbn [shr_record_of_loc Zdigits2].
  rewrite fexp_binary64.
  set (d := Zpos (digits2_pos M)) in *.
  assert (Hd1 : 1 <= d) by (unfold d; lia).
  destruct (Z.max (d + E - 53) (-1074) - E) as [|p|p] eqn:Hn;
    cbn [shr shr_m loc_of_shr_record round_nearest_even].
  - split; [exact Hle|]. split; [ | lia]. split; [lia|].
    apply Z.le_trans with (2 ^ d); [lia | apply Z.pow_le_mono_r; lia].
  - pose proof (pow2_pos p) as Hp.
    pose proof (iter_shr_1_m p (Build_shr_record (Zpos M) false false)) as Hm.
    cbn [shr_m] in Hm. specialize (Hm ltac:(lia)).
    set (out := iter_pos shr_1 p (Build_shr_record (Zpos M) false false)) in *.
    pose proof (round_nearest_even_le (shr_m out) (loc_of_shr_record out)) as HR.
    assert (Hq : 0 <= Zpos M / 2 ^ Zpos p) by (apply Z.div_pos; lia).
    (* the shifted mantissa has at most 53 digits *)
    assert (Hq53 : Zpos M / 2 ^ Zpos p < 2 ^ 53).
    { apply Z.div_lt_upper_bound; [lia|].
      rewrite <- Z.pow_add_r by lia.
      apply Z.lt_le_trans with (2 ^ d); [lia | apply Z.pow_le_mono_r; lia]. }
    destruct (Z_le_gt_dec (E + Zpos p) c) as [Hce|Hce].
    + (* the bound is a multiple of the unit of the result *)
      apply (proj1 (dyadic_le_at E K c (Zpos M) E ltac:(lia) ltac:(lia))) in Hle.
      replace (E - E) with 0 in Hle by lia. rewrite Z.mul_1_r in Hle.
      replace (c - E) with ((c - (E + Zpos p)) + Zpos p) in Hle by lia.
      rewrite Z.pow_add_r in Hle by lia.
      set (K' := K * 2 ^ (c - (E + Zpos p))) in *.
      rewrite Z.mul_assoc in Hle. fold K' in Hle.
      assert (HK' : 0 < K').
      { unfold K'. apply Z.mul_pos_pos; [lia | apply Z.pow_pos_nonneg; lia]. }
      assert (Hk : K' <= Zpos M / 2 ^ Zpos p)
        by (apply Z.div_le_lower_bound; lia).
      split; [ | split; lia].
      apply (proj2 (dyadic_le_at E K c _ (E + Zpos p) ltac:(lia) ltac:(lia))).
      replace (E + Zpos p - E) with (Zpos p) by lia.
      replace (c - E) with ((c - (E + Zpos p)) + Zpos p) by lia.
      rewrite Z.pow_add_r by lia. rewrite Z.mul_assoc. fold K'.
      apply Z.mul_le_mono_nonneg_r; lia.
    + (* the bound is below the unit of the result times 2^52 *)
      assert (He1 : E + Zpos p = d + E - 53) by lia.
      assert (Hpd : Zpos p = d - 53) by lia.
      assert (Hq52 : 2 ^ 52 <= Zpos M / 2 ^ Zpos p).
      { apply Z.div_le_lower_bound; [lia|].
        rewrite <- Z.pow_add_r by lia.
        replace (Zpos p + 52) with (d - 1) by lia. exact Hdlo. }
      split; [ | split; lia].
      apply (proj2 (dyadic_le_at c K c _ (E + Zpos p) ltac:(lia) ltac:(lia))).
      replace (c - c) with 0 by lia. rewrite Z.mul_1_r.
      assert (H2 : 2 <= 2 ^ (E + Zpos p - c)).
      { change 2 with (2 ^ 1) at 1. apply Z.pow_le_mono_r; lia. }
      change (2 ^ 52) with 4503599627370496 in Hq52.
      change (2 ^ 53) with 9007199254740992 in HK.
      nia.
  - split; [exact Hle|]. split; [ | lia]. split; [lia|].
    apply Z.le_trans with (2 ^ d); [lia | apply Z.pow_le_mono_r; lia].
Qed.

(** Second phase, exactly: on a mantissa of at most [2^53] the
    renormalising shift keeps the value, by no shift at all or by one
    exact halving. *)
Lemma shr_fexp_renorm_exact (R e1 : Z) :
  0 < R <= 2 ^ 53 -> -1074 <= e1 ->
  let '(mrs, e2) := shr_fexp prec emax R e1 loc_Exact in
  exists m2 : positive,
    shr_m mrs = Zpos m2
    /\ ((e2 = e1 /\ Zpos m2 = R) \/ (e2 = e1 + 1 /\ 2 * Zpos m2 = R)).
Proof.
  intros HR He. destruct R as [|r|r]; [lia | | lia].
  unfold shr_fexp. cbn [shr_record_of_loc Zdigits2]. rewrite fexp_binary64.
  pose proof (digits2_pos_bounds r) as [Hlo Hhi].
  set (d := Zpos (digits2_pos r)) in *.
  assert (Hd1 : 1 <= d) by (unfold d; lia).
  destruct (Z.eq_dec (Zpos r) (2 ^ 53)) as [Heq|Hne].
  - assert (Hd : d = 54).
    { assert (H1 : d - 1 <= 53).
      { apply (Z.pow_le_mono_r_iff 2); lia. }
      assert (H2 : 53 < d).
      { apply (Z.pow_lt_mono_r_iff 2); lia. }
      lia. }
    rewrite Hd. replace (Z.max (54 + e1 - 53) (-1074) - e1) with 1 by lia.
    cbn [shr iter_pos]. rewrite shr_1_nonneg by lia. cbn [shr_m].
    rewrite Heq. exists 4503599627370496%positive.
    split; [reflexivity|]. right. split; [lia | reflexivity].
  - assert (Hd : d <= 53).
    { assert (H1 : d - 1 < 53).
      { apply (Z.pow_lt_mono_r_iff 2); lia. }
      lia. }
    destruct (Z.max (d + e1 - 53) (-1074) - e1) as [|p|p] eqn:Hn;
      [ | lia | ]; cbn [shr shr_m]; exists r; split; try reflexivity;
      left; split; reflexivity.
Qed.

(** Rounding a positive dyadic number never carries it below a number
    [K * 2^c] of the format that it is above. *)
Lemma binary_round_aux_ge (M : positive) (E K c : Z) :
  0 < K < 2 ^ 53 -> -1074 <= c ->
  dyadic_le K c (Zpos M) E ->
  match binary_round_aux prec emax false (Zpos M) E loc_Exact with
  | S754_finite false m e => dyadic_le K c (Zpos m) e
  | S754_infinity false => True
  | _ => False
  end.
Proof.
  intros HK Hc Hle.
  pose proof (shr_fexp_round_ge M E K c HK Hc Hle) as H1.
  unfold binary_round_aux.
  destruct (shr_fexp prec emax (Zpos M) E loc_Exact) as [mrs e1].
  cbv zeta in H1. destruct H1 as (Hle1 & HR & He1).
  pose proof (shr_fexp_renorm_exact _ e1 HR He1) as H2.
  destruct (shr_fexp prec emax _ e1 loc_Exact) as [mrs2 e2].
  destruct H2 as (m2 & -> & Hcase).
  destruct (e2 <=? emax - prec)%Z; [ | exact I].
  destruct Hcase as [[-> Hm]|[-> Hm]].
  - rewrite Hm. exact Hle1.
  - set (z := Z.min c e1).
    apply (proj2 (dyadic_le_at z K c (Zpos m2) (e1 + 1)
                    ltac:(unfold z; lia) ltac:(unfold z; lia))).
    apply (proj1 (dyadic_le_at z K c _ e1
                    ltac:(unfold z; lia) ltac:(unfold z; lia))) in Hle1.
    rewrite <- Hm in Hle1.
    replace (e1 + 1 - z) with (1 + (e1 - z)) by lia.
    rewrite Z.pow_add_r by (unfold z; lia). change (2 ^ 1) with 2.
    lia.
Qed.

(** The integer part of the product of a float64 of [0,1] by 100 lies
    between the floor and the ceiling of the exact product. *)
Lemma f64_mul_100_sandwich (h : float64) :
  is_float64 h ->
  f64_leb f64_zero h = true -> f64_leb h (f64_of_Z 1) = true ->
  exists t, f64_trunc (f64_mul h (f64_of_Z 100)) = Some t
            /\ Qfloor (f64_val h * 100) <= t <= Qceiling (f64_val h * 100).
Proof.
  intros Hv H0 H1.
  destruct (unit_interval_inv h Hv H0 H1) as [[s ->]|(m & e & -> & He & Hm)].
  - exists 0. rewrite f64_of_Z_100. cbn. split; [reflexivity | split; lia].
  - destruct e as [|p|p]; [lia | lia |].
    change (- Zneg p) with (Zpos p) in Hm.
    pose proof (pow2_pos p) as Hp.
    (* floor and ceiling of the exact product *)
    assert (Hfl : Qfloor (f64_val (S754_finite false m (Zneg p)) * 100)
                  = (Zpos m * 100) / 2 ^ Zpos p).
    { cbn [f64_val]. unfold Qfloor, Qmult. cbn [Qnum Qden].
      rewrite Pos.mul_1_r, Pos2Z.inj_pow. reflexivity. }
    assert (Hce : Qceiling (f64_val (S754_finite false m (Zneg p)) * 100)
                  = - ((- (Zpos m * 100)) / 2 ^ Zpos p)).
    { cbn [f64_val]. unfold Qceiling, Qfloor, Qopp, Qmult. cbn [Qnum Qden].
      rewrite Pos.mul_1_r, Pos2Z.inj_pow. reflexivity. }
    rewrite Hfl, Hce.
    set (lo := (Zpos m * 100) / 2 ^ Zpos p).
    set (hi := - ((- (Zpos m * 100)) / 2 ^ Zpos p)).
    assert (Hlo : lo * 2 ^ Zpos p <= Zpos m * 100).
    { unfold lo. rewrite Z.mul_comm. apply Z.mul_div_le. lia. }
    assert (Hhi : Zpos m * 100 <= hi * 2 ^ Zpos p).
    { unfold hi. pose proof (Z.mul_div_le (- (Zpos m * 100)) (2 ^ Zpos p) Hp). lia. }
    assert (Hhi1 : 1 <= hi) by nia.
    assert (Hhi100 : hi <= 100).
    { unfold hi.
      assert (- 100 <= (- (Zpos m * 100)) / 2 ^ Zpos p)
        by (apply Z.div_le_lower_bound; lia).
      lia. }
    rewrite f64_of_Z_100. unfold f64_mul. cbn [SFmul xorb].
    (* the exact product is [M * 2^E] *)
    assert (Hup : dyadic_le (Zpos (m * 7036874417766400)) (Zneg p + -46) hi 0).
    { apply (proj2 (dyadic_le_at (Zneg p + -46) _ (Zneg p + -46) hi 0
                      ltac:(lia) ltac:(lia))).
      replace (Zneg p + -46 - (Zneg p + -46)) with 0 by lia.
      replace (0 - (Zneg p + -46)) with (46 + Zpos p) by lia.
      rewrite Z.pow_add_r by lia. rewrite Pos2Z.inj_mul.
      change (2 ^ 46) with 70368744177664. change (2 ^ 0) with 1. lia. }
    pose proof (binary_round_aux_le (m * 7036874417766400) (Zneg p + -46) hi 0
                  ltac:(split; [lia|]; change (2 ^ 53) with 9007199254740992; lia)
                  ltac:(lia) Hup) as Hr.
    assert (Hdown : 1 <= lo ->
                    match binary_round_aux prec emax false
                            (Zpos (m * 7036874417766400)) (Zneg p + -46) loc_Exact with
                    | S754_finite false m' e' => dyadic_le lo 0 (Zpos m') e'
                    | S754_infinity false => True
                    | _ => False
                    end).
    { intros Hlo1. apply binary_round_aux_ge.
      - split; [lia|]. change (2 ^ 53) with 9007199254740992. nia.
      - lia.
      - apply (proj2 (dyadic_le_at (Zneg p + -46) lo 0 _ (Zneg p + -46)
                        ltac:(lia) ltac:(lia))).
        replace (Zneg p + -46 - (Zneg p + -46)) with 0 by lia.
        replace (0 - (Zneg p + -46)) with (46 + Zpos p) by lia.
        rewrite Z.pow_add_r by lia. rewrite Pos2Z.inj_mul.
        change (2 ^ 46) with 70368744177664. change (2 ^ 0) with 1. lia. }
    destruct (binary_round_aux prec emax false _ _ loc_Exact) as [[|]|s| |[|] m' e'];
      try contradiction.
    + exists 0. cbn [f64_trunc]. split; [reflexivity|].
      split; [ | lia].
      destruct (Z_le_gt_dec lo 0) as [H|H]; [exact H|].
      exfalso. apply Hdown. lia.
    + destruct e' as [|q|q].
      * apply (proj1 (dyadic_le_at 0 (Zpos m') 0 hi 0 ltac:(lia) ltac:(lia))) in Hr.
        change (2 ^ (0 - 0)) with 1 in Hr.
        exists (Zpos m' * 2 ^ 0). cbn [f64_trunc]. split; [reflexivity|].
        change (2 ^ 0) with 1. split; [ | lia].
        destruct (Z_le_gt_dec lo 0) as [H|H]; [lia|].
        specialize (Hdown ltac:(lia)).
        apply (proj1 (dyadic_le_at 0 lo 0 (Zpos m') 0 ltac:(lia) ltac:(lia))) in Hdown.
        change (2 ^ (0 - 0)) with 1 in Hdown. lia.
      * pose proof (pow2_pos q) as Hq.
        apply (proj1 (dyadic_le_at 0 (Zpos m') (Zpos q) hi 0
                        ltac:(lia) ltac:(lia))) in Hr.
        change (2 ^ (0 - 0)) with 1 in Hr. rewrite Z.sub_0_r in Hr.
        exists (Zpos m' * 2 ^ Zpos q). cbn [f64_trunc]. split; [reflexivity|].
        split; [ | lia].
        destruct (Z_le_gt_dec lo 0) as [H|H]; [nia|].
        specialize (Hdown ltac:(lia)).
        apply (proj1 (dyadic_le_at 0 lo 0 (Zpos m') (Zpos q)
                        ltac:(lia) ltac:(lia))) in Hdown.
        change (2 ^ (0 - 0)) with 1 in Hdown. rewrite Z.sub_0_r in Hdown. lia.
      * pose proof (pow2_pos q) as Hq.
        apply (proj1 (dyadic_le_at (Zneg q) (Zpos m') (Zneg q) hi 0
                        ltac:(lia) ltac:(lia))) in Hr.
        replace (Zneg q - Zneg q) with 0 in Hr by lia.
        replace (0 - Zneg q) with (Zpos q) in Hr by lia.
        change (2 ^ 0) with 1 in Hr.
        exists (Zpos m' / 2 ^ Zpos q). cbn [f64_trunc].
        rewrite Z.quot_div_nonneg by lia. split; [reflexivity|]. split.
        -- destruct (Z_le_gt_dec lo 0) as [H|H].
           ++ apply Z.le_trans with 0; [exact H | apply Z.div_pos; lia].
           ++ specialize (Hdown ltac:(lia)).
              apply (proj1 (dyadic_le_at (Zneg q) lo 0 (Zpos m') (Zneg q)
                              ltac:(lia) ltac:(lia))) in Hdown.
              replace (Zneg q - Zneg q) with 0 in Hdown by lia.
              replace (0 - Zneg q) with (Zpos q) in Hdown by lia.
              change (2 ^ 0) with 1 in Hdown.
              apply Z.div_le_lower_bound; lia.
        -- apply Z.div_le_upper_bound; lia.
Qed.

(** A float64 of the closed interval from 0 to 1. *)
Definition in_unit_interval (h : float64) : Prop :=
  is_float64 h
  /\ f64_leb f64_zero h = true /\ f64_leb h (f64_of_Z 1) = true.

(** The provider-B scenario with the humidity 0.15, and with the
    humidity 0.57. *)
Definition ds_humidity_0_15 : DarkSkyForecast.t :=
  DarkSkyForecast.mk f64_zero f64_zero ""
    (Currently.mk 0 "Rain" "" (f64_of_decimal 100 1) (f64_of_Z 1000)
                  (f64_of_decimal 15 2) (f64_of_decimal 20 1) 90
                  (f64_of_decimal 3 1) (f64_of_decimal 9 1) f64_zero).

Definition ds_humidity_0_57 : DarkSkyForecast.t :=
  DarkSkyForecast.mk f64_zero f64_zero ""
    (Currently.mk 0 "Rain" "" (f64_of_decimal 100 1) (f64_of_Z 1000)
                  (f64_of_decimal 57 2) (f64_of_decimal 20 1) 90
                  (f64_of_decimal 3 1) (f64_of_decimal 9 1) f64_zero).

(** C2, as stated, fails: the humidity is the floor of the float64
    product, which is rounded. On the float64 nearest to 0.15, a number
    of [0,1] below 0.15, the product is 15 exactly and the humidity is
    15, though the floor of a hundred times that float64 is 14. On the
    float64 nearest to 0.57 the humidity is 56, the floor of a hundred
    times the float64, though the floor of a hundred times the decimal
    0.57 of the response is 57. *)
Lemma DSToWeather_percentage_not_exact_floor :
  in_unit_interval (Currently.Humidity (DarkSkyForecast.Currently ds_humidity_0_15))
  /\ in_unit_interval (Currently.CloudCover (DarkSkyForecast.Currently ds_humidity_0_15))
  /\ Weather.Humidity (DSToWeather W64 unrep_amd64 ds_humidity_0_15) = 15
  /\ Qfloor (f64_val (Currently.Humidity (DarkSkyForecast.Currently ds_humidity_0_15))
             * 100) = 14
  /\ Weather.Humidity (DSToWeather W64 unrep_amd64 ds_humidity_0_15)
     <> Qfloor (f64_val (Currently.Humidity
                           (DarkSkyForecast.Currently ds_humidity_0_15)) * 100)
  /\ in_unit_interval (Currently.Humidity (DarkSkyForecast.Currently ds_humidity_0_57))
  /\ Weather.Humidity (DSToWeather W64 unrep_amd64 ds_humidity_0_57) = 56
  /\ Qfloor ((57 # 100) * 100) = 57.
Proof. repeat split; try reflexivity; discriminate. Qed.

(** C2, amended. For every provider-B response whose fractional humidity
    and cloud cover are float64 of [0,1], [DSToWeather] gives as Humidity
    and as Cloudiness the floor of the float64 product of the fraction by
    100. Each lies between the floor and the ceiling of the exact product
    (it is the floor of the exact product, or one more when the rounding
    of the product reaches the next integer), and both are integers of
    [0,100]. *)
Theorem DSToWeather_percentages (ws : word_size) (unrep : float64 -> Z)
  (f : DarkSkyForecast.t)
  (Hh : in_unit_interval (Currently.Humidity (DarkSkyForecast.Currently f)))
  (Hc : in_unit_interval (Currently.CloudCover (DarkSkyForecast.Currently f))) :
  Weather.Humidity (DSToWeather ws unrep f)
  = Qfloor (f64_val (f64_mul (Currently.Humidity (DarkSkyForecast.Currently f))
                             (f64_of_Z 100)))
  /\ Weather.Cloudiness (DSToWeather ws unrep f)
     = Qfloor (f64_val (f64_mul (Currently.CloudCover (DarkSkyForecast.Currently f))
                                (f64_of_Z 100)))
  /\ 0 <= Weather.Humidity (DSToWeather ws unrep f) <= 100
  /\ 0 <= Weather.Cloudiness (DSToWeather ws unrep f) <= 100
  /\ Qfloor (f64_val (Currently.Humidity (DarkSkyForecast.Currently f)) * 100)
     <= Weather.Humidity (DSToWeather ws unrep f)
     <= Qceiling (f64_val (Currently.Humidity (DarkSkyForecast.Currently f)) * 100)
  /\ Qfloor (f64_val (Currently.CloudCover (DarkSkyForecast.Currently f)) * 100)
     <= Weather.Cloudiness (DSToWeather ws unrep f)
     <= Qceiling (f64_val (Currently.CloudCover (DarkSkyForecast.Currently f)) * 100).
Proof.
  destruct Hh as (Hh1 & Hh2 & Hh3). destruct Hc as (Hc1 & Hc2 & Hc3).
  destruct (f64_to_int_pct ws unrep _ Hh1 Hh2 Hh3) as [Hhf Hhb].
  destruct (f64_to_int_pct ws unrep _ Hc1 Hc2 Hc3) as [Hcf Hcb].
  destruct (f64_mul_100_unit _ Hh1 Hh2 Hh3) as (th & Hth & _ & Hthf).
  destruct (f64_mul_100_unit _ Hc1 Hc2 Hc3) as (tc & Htc & _ & Htcf).
  destruct (f64_mul_100_sandwich _ Hh1 Hh2 Hh3) as (th' & Hth' & Hhs).
  destruct (f64_mul_100_sandwich _ Hc1 Hc2 Hc3) as (tc' & Htc' & Hcs).
  assert (th' = th) by congruence. assert (tc' = tc) by congruence.
  subst th' tc'.
  cbn [DSToWeather Weather.Humidity Weather.Cloudiness].
  rewrite Hhf, Hcf in *. rewrite <- Hthf, <- Htcf in *.
  repeat split; try reflexivity; lia.
Qed.

Lemma DSToWeather_percentages_witness :
  Weather.Humidity (DSToWeather W64 unrep_amd64 scenario_ds)
  = Qfloor (f64_val (f64_mul (f64_of_decimal 55 2) (f64_of_Z 100)))
  /\ Weather.Cloudiness (DSToWeather W64 unrep_amd64 scenario_ds)
     = Qfloor (f64_val (f64_mul (f64_of_decimal 9 1) (f64_of_Z 100)))
  /\ 0 <= Weather.Humidity (DSToWeather W64 unrep_amd64 scenario_ds) <= 100
  /\ 0 <= Weather.Cloudiness (DSToWeather W64 unrep_amd64 scenario_ds) <= 100
  /\ Qfloor (f64_val (f64_of_decimal 55 2) * 100)
     <= Weather.Humidity (DSToWeather W64 unrep_amd64 scenario_ds)
     <= Qceiling (f64_val (f64_of_decimal 55 2) * 100)
  /\ Qfloor (f64_val (f64_of_decimal 9 1) * 100)
     <= Weather.Cloudiness (DSToWeather W64 unrep_amd64 scenario_ds)
     <= Qceiling (f64_val (f64_of_decimal 9 1) * 100).
Proof.
  apply (DSToWeather_percentages W64 unrep_amd64 scenario_ds);
    repeat split; reflexivity.
Defined.

(** The product is the float64 one, rounded to nearest: on the float64
    nearest to 0.15, which lies below 0.15, it is 15 exactly, though the
    floor of one hundred times that float64 is 14. *)
Remark percentage_of_rounded_product :
  let h := f64_of_decimal 15 2 in
  f64_to_int W64 unrep_amd64 (f64_mul h (f64_of_Z 100)) = 15
  /\ Qfloor (f64_val h * 100) = 14.
Proof. split; reflexivity. Qed.

(** C3. [DSToWeather] copies the precipitation intensity into Rainfall
    unchanged; on the scenario of the specification the record is
    [{Temperature:10.0, Pressure:1000, Humidity:55, Weather:"Rain",
    WindSpeed:2.0, WindDeg:90, Cloudiness:90, Rainfall:0.3}]. *)
Theorem DSToWeather_rainfall (ws : word_size) (unrep : float64 -> Z) :
  (forall f : DarkSkyForecast.t,
      Weather.Rainfall (DSToWeather ws unrep f)
      = Currently.PrecipIntensity (DarkSkyForecast.Currently f))
  /\ DSToWeather ws unrep scenario_ds = scenario_ds_record.
Proof.
  split; [reflexivity|]. destruct ws; reflexivity.
Qed.

(** C8. Both adapters leave Snowfall at zero, and [DSToWeather] leaves UV
    at zero whatever the [uvIndex] of the response. *)
Theorem adapters_leave_snowfall_zero (ws : word_size) (unrep : float64 -> Z)
  (w : owm.CurrentWeatherData.t) (uv : owm.UV.t) (f : DarkSkyForecast.t) :
  match OWMToWeather w uv with
  | Ok r => Weather.Snowfall r = f64_zero
  | Panic _ => owm.CurrentWeatherData.Weather w = []
  end
  /\ Weather.Snowfall (DSToWeather ws unrep f) = f64_zero
  /\ Weather.UV (DSToWeather ws unrep f) = f64_zero.
Proof.
  split; [ | split; reflexivity].
  destruct w as [[|w0 ws'] m wi c r]; reflexivity.
Qed.

(** C10. [OWMToWeather] is defined exactly on the responses whose Weather
    array is not empty; on an empty one it panics, index 0 being out of
    range. *)
Theorem OWMToWeather_defined_iff_nonempty
  (w : owm.CurrentWeatherData.t) (uv : owm.UV.t) :
  ((exists r : Weather.t, OWMToWeather w uv = Ok r)
   <-> owm.CurrentWeatherData.Weather w <> [])
  /\ (OWMToWeather w uv = Panic (IndexOutOfRange 0 0)
      <-> owm.CurrentWeatherData.Weather w = []).
Proof.
  destruct w as [[|w0 ws'] m wi c r]; cbn [owm.CurrentWeatherData.Weather].
  - rewrite OWMToWeather_nil. split; split; try reflexivity.
    + intros [r' H]. discriminate H.
    + intros H. contradiction H. reflexivity.
  - rewrite OWMToWeather_cons. split; split; try discriminate.
    intros _. eexists. reflexivity.
Qed.

(** The invariant of the data model on the two percentages. *)
Definition percent_invariant (r : Weather.t) : Prop :=
  0 <= Weather.Humidity r <= 100 /\ 0 <= Weather.Cloudiness r <= 100.

(** The scenarios with a humidity out of range: 101 percent from provider
    A, the fraction 1.5 from provider B. *)
Definition owm_humidity_101 : owm.CurrentWeatherData.t :=
  owm.CurrentWeatherData.mk
    [owm.Weather.mk "Clouds"]
    (owm.Main.mk (f64_of_decimal 152 1) (f64_of_Z 1013) 101)
    (owm.Wind.mk (f64_of_decimal 31 1) (f64_of_Z 180))
    (owm.Clouds.mk 80)
    (owm.Rain.mk (f64_of_decimal 15 1)).

Definition ds_humidity_1_5 : DarkSkyForecast.t :=
  DarkSkyForecast.mk f64_zero f64_zero ""
    (Currently.mk 0 "Rain" "" (f64_of_decimal 100 1) (f64_of_Z 1000)
                  (f64_of_decimal 15 1) (f64_of_decimal 20 1) 90
                  (f64_of_decimal 3 1) (f64_of_decimal 9 1) f64_zero).

(** C9, as stated, fails: neither adapter checks its input. A provider-A
    humidity of 101 is copied into the record, and a provider-B humidity
    fraction of 1.5 becomes 150. *)
Lemma percent_invariant_not_enforced :
  (exists r : Weather.t,
      OWMToWeather owm_humidity_101 scenario_uv = Ok r
      /\ Weather.Humidity r = 101 /\ ~ percent_invariant r)
  /\ Weather.Humidity (DSToWeather W64 unrep_amd64 ds_humidity_1_5) = 150
  /\ ~ percent_invariant (DSToWeather W64 unrep_amd64 ds_humidity_1_5).
Proof.
  split; [ | split].
  - eexists. split; [reflexivity|]. split; [reflexivity|].
    unfold percent_invariant. cbn. lia.
  - reflexivity.
  - unfold percent_invariant.
    change (Weather.Humidity (DSToWeather W64 unrep_amd64 ds_humidity_1_5))
      with 150.
    lia.
Qed.

(** C9, amended. The record of [DSToWeather] satisfies the invariant when
    the fractional humidity and cloud cover of the response lie in [0,1];
    [OWMToWeather] copies the two integers, so that its record satisfies
    the invariant exactly when the raw humidity and cloudiness of the
    response do. *)
Theorem percent_invariant_of_provider_range
  (ws : word_size) (unrep : float64 -> Z)
  (f : DarkSkyForecast.t) (w : owm.CurrentWeatherData.t) (uv : owm.UV.t)
  (r : Weather.t)
  (Hh : in_unit_interval (Currently.Humidity (DarkSkyForecast.Currently f)))
  (Hc : in_unit_interval (Currently.CloudCover (DarkSkyForecast.Currently f)))
  (Hr : OWMToWeather w uv = Ok r) :
  percent_invariant (DSToWeather ws unrep f)
  /\ (percent_invariant r
      <-> 0 <= owm.Main.Humidity (owm.CurrentWeatherData.Main w) <= 100
          /\ 0 <= owm.Clouds.All (owm.CurrentWeatherData.Clouds w) <= 100).
Proof.
  split.
  - destruct Hh as (Hh1 & Hh2 & Hh3). destruct Hc as (Hc1 & Hc2 & Hc3).
    destruct (f64_to_int_pct ws unrep _ Hh1 Hh2 Hh3) as [_ Hhb].
    destruct (f64_to_int_pct ws unrep _ Hc1 Hc2 Hc3) as [_ Hcb].
    split; assumption.
  - destruct w as [[|w0 ws'] m wi c rn].
    + rewrite OWMToWeather_nil in Hr. discriminate Hr.
    + rewrite OWMToWeather_cons in Hr. injection Hr as <-.
      unfold percent_invariant. reflexivity.
Qed.

Lemma percent_invariant_of_provider_range_witness :
  percent_invariant (DSToWeather W64 unrep_amd64 scenario_ds)
  /\ (percent_invariant scenario_owm_record <-> 0 <= 60 <= 100 /\ 0 <= 80 <= 100).
Proof.
  apply (percent_invariant_of_provider_range W64 unrep_amd64 scenario_ds
           scenario_owm scenario_uv scenario_owm_record);
    try (repeat split; reflexivity).
Defined.

(* ===================================================================== *)
(** * Properties of the recorder *)
(* ===================================================================== *)

(** The batch of [RecordMeasurement]: temperature, pressure, humidity as
    an int64, wind speed. *)
Definition four_measurements (w : Weather.t) : list Measurement :=
  [ Float64M V2.MTemperature (Weather.Temperature w);
    Float64M V2.MPressure (Weather.Pressure w);
    Int64M V2.MHumidity (int64_of_int (Weather.Humidity w));
    Float64M V2.MWindSpeed (Weather.WindSpeed w) ].

(** The call tags the context with [node_id = id] and submits the batch,
    nothing else happens. *)
Definition records_four (id : string) (w : Weather.t) (st : World) : Prop :=
  V2.RecordMeasurement id w st
  = (Returns None,
     mk_world (log st) (stdout st)
              (recorded st ++ [mk_recording [("node_id", id)] (four_measurements w)])).

(** The call logs the tagging error, returns it and submits nothing. *)
Definition records_nothing (id : string) (w : Weather.t) (st : World) : Prop :=
  exists err : error,
    V2.RecordMeasurement id w st
    = (Returns (Some err),
       mk_world (log st ++ [mk_entry Zap ErrorLevel "failed to insert key: %v" (Some err)])
                (stdout st) (recorded st)).

(** A source identifier that is not a tag value: a line feed. *)
Definition line_feed_id : string := String (ascii_of_nat 10) EmptyString.

(** C4, as stated, fails: for an identifier that is not a valid tag value
    the tagging fails and no measurement is submitted. *)
Lemma RecordMeasurement_invalid_id :
  ~ records_four line_feed_id scenario_ds_record empty_world
  /\ recorded (snd (V2.RecordMeasurement line_feed_id scenario_ds_record empty_world))
     = [].
Proof.
  split; [ | reflexivity].
  unfold records_four. intros H. vm_compute in H. discriminate H.
Qed.

(** On an int the widening [int64(n)] keeps the value. *)
Lemma int64_of_int_id (ws : word_size) (n : Z) :
  in_int ws n = true -> int64_of_int n = n.
Proof.
  unfold in_int, int_min, int_max, int64_of_int. intros H.
  apply andb_prop in H. destruct H as [H1 H2].
  apply Z.leb_le in H1. apply Z.leb_le in H2.
  assert (Hr : - 2 ^ 63 <= n <= 2 ^ 63 - 1).
  { destruct ws; cbn [int_bits] in H1, H2.
    - change (2 ^ (32 - 1)) with 2147483648 in H1, H2.
      change (2 ^ 63) with 9223372036854775808. lia.
    - change (2 ^ (64 - 1)) with (2 ^ 63) in H1, H2. lia. }
  change (2 ^ 63) with 9223372036854775808 in *.
  change (2 ^ 64) with 18446744073709551616.
  rewrite Z.mod_small; lia.
Qed.

(** C4, amended. For every Weather Record and every source identifier
    that is a valid tag value (at most 255 printable ASCII characters, as
    "openweathermap" and "darksky" are), [RecordMeasurement] tags the
    context with the identifier under [node_id] and submits exactly the
    four measurements: temperature, pressure, humidity as an int64, wind
    speed. For any other identifier it logs the tagging error, returns it
    and submits nothing. *)
Theorem RecordMeasurement_by_tag_value (id : string) (w : Weather.t) (st : World) :
  (if checkValue id then records_four id w st else records_nothing id w st)
  /\ List.length (four_measurements w) = 4%nat
  /\ checkValue "openweathermap" = true
  /\ checkValue "darksky" = true.
Proof.
  split; [ | repeat split].
  unfold records_four, records_nothing, V2.RecordMeasurement, tag_New_Upsert.
  destruct (checkValue id).
  - reflexivity.
  - eexists. reflexivity.
Qed.

(* ===================================================================== *)
(** * Properties of the fetch paths and of the poll loop *)
(* ===================================================================== *)

Definition add_log (entries : list LogEntry) (st : World) : World :=
  mk_world (log st ++ entries) (stdout st) (recorded st).

(** The fetch of a tick fails with the error [e]. *)
Definition fetch_fails (t : tick) (s : loop_state) (e : error) : Prop :=
  match t with
  | OWMTick fetch => snd (fetch (owmw s)) = Some e
  | DSTick (GetFailed reason) => e = ErrHTTP reason
  | DSTick (GetOk _ _) => False
  end.

Lemma add_log_app (l1 l2 : list LogEntry) (st : World) :
  add_log l2 (add_log l1 st) = add_log (l1 ++ l2) st.
Proof. unfold add_log. cbn. rewrite app_assoc. reflexivity. Qed.

(** In [src/unnamed/part_000] a tick whose fetch fails is logged and
    given up: nothing is recorded, the process neither exits nor panics,
    and the loop serves the ticks that follow, whichever path they belong
    to. *)
Lemma V2_fetch_failure_skips_tick (ws : word_size) (unrep : float64 -> Z)
  (t : tick) (s : loop_state) (e : error) (rest : list tick) (st : World) :
  fetch_fails t s e ->
  exists (s' : loop_state) (entries : list LogEntry),
    entries <> []
    /\ Forall (fun en => entry_error en = Some e) entries
    /\ V2.handle ws unrep t s st = (Returns s', add_log entries st)
    /\ owmuv s' = owmuv s
    /\ V2.loop ws unrep (t :: rest) s st
       = V2.loop ws unrep rest s' (add_log entries st).
Proof.
  intros Hf. destruct t as [fetch|[reason|status b]]; cbn in Hf.
  - destruct (fetch (owmw s)) as [w' err] eqn:Hfetch. cbn in Hf. subst err.
    exists (mk_loop_state w' (owmuv s)).
    exists [mk_entry Zap ErrorLevel
              "failed to call current data from OpenWeatherMap: %v" (Some e)].
    split; [discriminate|]. split; [ | split; [ | split]].
    + repeat constructor.
    + unfold V2.handle. rewrite Hfetch. reflexivity.
    + reflexivity.
    + cbn [V2.loop]. unfold bind at 1. unfold V2.handle. rewrite Hfetch.
      reflexivity.
  - subst e. exists s.
    exists [mk_entry Zap ErrorLevel "failed to call DarkSky forecast API: %s"
              (Some (ErrHTTP reason));
            mk_entry Zap ErrorLevel "failed to call DarkSky: %v"
              (Some (ErrHTTP reason))].
    split; [discriminate|]. split; [ | split; [ | split]].
    + repeat constructor.
    + unfold V2.handle, V2.CallDarkSkyForecast, add_log. cbn.
      rewrite <- app_assoc. reflexivity.
    + reflexivity.
    + cbn [V2.loop]. unfold bind at 1.
      unfold V2.handle, V2.CallDarkSkyForecast, add_log. cbn.
      rewrite <- app_assoc. reflexivity.
  - contradiction.
Qed.

(** C5 on [src/main.go]. A fetch failure on the provider-B path is logged
    by [log.Fatalf], which ends the process with status 1: no later tick
    of either path is served. A fetch failure on the provider-A path is
    not looked at: nothing is logged and the tick goes on to the mapping. *)
Theorem V1_fetch_failure_not_recovered (ws : word_size) (unrep : float64 -> Z)
  (reason : string) (fetch : owm_fetch) (rest : list tick) (s : loop_state)
  (st : World) :
  V1.loop ws unrep (DSTick (GetFailed reason) :: rest) s st
  = (Exits 1,
     add_log [mk_entry StdLog FatalLevel "failed to call DarkSky forecast API: %s"
                       (Some (ErrHTTP reason))] st)
  /\ log (snd (V1.handle ws unrep (OWMTick fetch) s st)) = log st.
Proof.
  split; [reflexivity|].
  unfold V1.handle, bind, of_result.
  destruct (OWMToWeather (fst (fetch (owmw s))) (owmuv s)); reflexivity.
Qed.



Definition has_member (name : string) (members : list (string * json)) : bool :=
  existsb (fun kv => key_is name (fst kv)) members.







(** C7 on the code. In both source files [InitOpenWeatherMap] drops the
    errors of its first [w.CurrentByCoordinates] and [uv.Current] calls:
    when both fail it writes no log entry (it leaves the world as it is)
    and returns the two clients as a success. *)
Theorem InitOpenWeatherMap_drops_fetch_errors
  (w0 w1 : owm.CurrentWeatherData.t) (uv0 uv1 : owm.UV.t) (e1 e2 : error)
  (st : World) :
  let net := mk_owm_boot (inr w0) (fun _ => (w1, Some e1))
                         (inr uv0) (fun _ => (uv1, Some e2)) in
  V2.InitOpenWeatherMap net st = (Returns (inr (w1, uv1)), st)
  /\ V1.InitOpenWeatherMap net st = (Returns (w1, uv1), st).
Proof. split; reflexivity. Qed.

(** The poll loop of [src/unnamed/part_000] does look at the error of the
    same call, and logs it. *)
Lemma V2_tick_logs_fetch_error (ws : word_size) (unrep : float64 -> Z)
  (w1 : owm.CurrentWeatherData.t) (e : error) (s : loop_state) (st : World) :
  V2.handle ws unrep (OWMTick (fun _ => (w1, Some e))) s st
  = (Returns (mk_loop_state w1 (owmuv s)),
     add_log [mk_entry Zap ErrorLevel
                "failed to call current data from OpenWeatherMap: %v" (Some e)] st).
Proof. reflexivity. Qed.

(* ===================================================================== *)
(** * The provider-B scenario, from the response body to the recorder *)
(* ===================================================================== *)

(** The decoder reads the JSON document of the scenario into the struct
    of the scenario. *)
Example Decode_scenario (ws : word_size) :
  Decode ws (JSONText scenario_ds_json) = (scenario_ds, None).
Proof. destruct ws; reflexivity. Qed.

(** One provider-B tick of [src/unnamed/part_000] on that body: one
    recording, tagged [node_id = "darksky"], of the four measurements of
    the scenario's record; nothing is logged. *)
Example V2_DarkSky_tick_scenario (ws : word_size) (unrep : float64 -> Z)
  (s : loop_state) :
  V2.handle ws unrep (DSTick (GetOk 200 (JSONText scenario_ds_json))) s empty_world
  = (Returns s,
     mk_world [] []
       [mk_recording [("node_id", "darksky")] (four_measurements scenario_ds_record)]).
Proof. destruct ws; reflexivity. Qed.

(* ===================================================================== *)
(** * The poll loop of [src/unnamed/part_000], tick after tick *)
(* ===================================================================== *)

(** The four messages the loop can log: each is a zap entry at error
    level about a fetch or a decoding. *)
Definition fetch_formats : list string :=
  [ "failed to call current data from OpenWeatherMap: %v";
    "failed to call DarkSky forecast API: %s";
    "failed to decode DarkSky reponse: %s";
    "failed to call DarkSky: %v" ].

Definition fetch_entry (en : LogEntry) : Prop :=
  entry_logger en = Zap /\ entry_level en = ErrorLevel
  /\ In (entry_format en) fetch_formats.

(** A recording of the loop: the batch of four of some Weather Record,
    tagged with one of the two source identifiers. *)
Definition source_recording (r : Recording) : Prop :=
  exists (id : string) (w : Weather.t),
    (id = "openweathermap" \/ id = "darksky")
    /\ r = mk_recording [("node_id", id)] (four_measurements w).

(** What one turn of the loop does to the world: it appends log entries
    and recordings, and leaves the standard output alone. *)
Definition extends (st st' : World) (entries : list LogEntry)
  (recs : list Recording) : Prop :=
  st' = mk_world (log st ++ entries) (stdout st) (recorded st ++ recs).

Lemma extends_refl (st : World) : extends st st [] [].
Proof. unfold extends. rewrite !app_nil_r. destruct st; reflexivity. Qed.

Lemma extends_trans (st1 st2 st3 : World) (e1 e2 : list LogEntry)
  (r1 r2 : list Recording) :
  extends st1 st2 e1 r1 -> extends st2 st3 e2 r2 ->
  extends st1 st3 (e1 ++ e2)%list (r1 ++ r2)%list.
Proof.
  unfold extends. intros -> ->. cbn. rewrite !app_assoc. reflexivity.
Qed.

(** One turn: either the turn panics on the empty Weather array of a
    fetched provider-A response, before any effect, or it returns having
    made one recording and no log entry, or log entries and no
    recording. The UV client is never touched. *)
Lemma V2_handle_effects (ws : word_size) (unrep : float64 -> Z)
  (t : tick) (s : loop_state) (st : World) :
  (V2.handle ws unrep t s st = (Panics (IndexOutOfRange 0 0), st)
   /\ exists fetch : owm_fetch,
        t = OWMTick fetch /\ snd (fetch (owmw s)) = None
        /\ owm.CurrentWeatherData.Weather (fst (fetch (owmw s))) = [])
  \/ exists (s' : loop_state) (entries : list LogEntry) (recs : list Recording),
       V2.handle ws unrep t s st = (Returns s', mk_world (log st ++ entries) (stdout st) (recorded st ++ recs))
       /\ owmuv s' = owmuv s
       /\ Forall fetch_entry entries
       /\ Forall source_recording recs
       /\ ((entries = [] /\ List.length recs = 1%nat)
           \/ (recs = [] /\ 1 <= List.length entries <= 2)%nat).
Proof.
  destruct t as [fetch|[reason|status b]]; unfold V2.handle.
  - destruct (fetch (owmw s)) as [w' [e|]] eqn:Hf.
    + right. exists (mk_loop_state w' (owmuv s)).
      exists [mk_entry Zap ErrorLevel
                "failed to call current data from OpenWeatherMap: %v" (Some e)], [].
      split; [ | split; [reflexivity | split; [ | split; [constructor|]]]].
      * cbn. rewrite app_nil_r. reflexivity.
      * repeat constructor; cbn; tauto.
      * right. split; [reflexivity | cbn; lia].
    + destruct w' as [[|w0 ws'] m wi c r].
      * left. split; [reflexivity|]. exists fetch. rewrite Hf. repeat split.
      * right. exists (mk_loop_state (owm.CurrentWeatherData.mk (w0 :: ws') m wi c r) (owmuv s)).
        exists [].
        eexists [_].
        split; [ | split; [reflexivity | split; [constructor | split]]].
        -- cbn. rewrite app_nil_r. reflexivity.
        -- repeat constructor. eexists _, _. split; [left; reflexivity | reflexivity].
        -- left. split; reflexivity.
  - right. exists s.
    exists [mk_entry Zap ErrorLevel "failed to call DarkSky forecast API: %s"
              (Some (ErrHTTP reason));
            mk_entry Zap ErrorLevel "failed to call DarkSky: %v"
              (Some (ErrHTTP reason))], [].
    split; [ | split; [reflexivity | split; [ | split; [constructor|]]]].
    + cbn. rewrite app_nil_r, <- app_assoc. reflexivity.
    + repeat constructor; cbn; tauto.
    + right. split; [reflexivity | cbn; lia].
  - right. exists s. unfold V2.CallDarkSkyForecast.
    destruct (Decode ws b) as [f [e|]].
    + exists [mk_entry Zap ErrorLevel "failed to decode DarkSky reponse: %s"
                (Some (ErrJSON e));
              mk_entry Zap ErrorLevel "failed to call DarkSky: %v"
                (Some (ErrJSON e))], [].
      split; [ | split; [reflexivity | split; [ | split; [constructor|]]]].
      * cbn. rewrite app_nil_r, <- app_assoc. reflexivity.
      * repeat constructor; cbn; tauto.
      * right. split; [reflexivity | cbn; lia].
    + exists []. eexists [_].
      split; [ | split; [reflexivity | split; [constructor | split]]].
      * cbn. rewrite app_nil_r. reflexivity.
      * repeat constructor. eexists _, _. split; [right; reflexivity | reflexivity].
      * left. split; reflexivity.
Qed.





(** The effects of the loop on the world, tick after tick. *)
Lemma V2_loop_extends (ws : word_size) (unrep : float64 -> Z)
  (ticks : list tick) (s : loop_state) (st : World) :
  exists (entries : list LogEntry) (recs : list Recording),
    extends st (snd (V2.loop ws unrep ticks s st)) entries recs
    /\ Forall fetch_entry entries
    /\ Forall source_recording recs
    /\ (List.length recs <= List.length ticks)%nat
    /\ match fst (V2.loop ws unrep ticks s st) with
       | Returns _ =>
           exists failed : nat,
             (List.length recs + failed = List.length ticks
              /\ failed <= List.length entries <= 2 * failed)%nat
       | _ => True
       end.
Proof.
  revert s st. induction ticks as [|t rest IH]; intros s st.
  - exists [], []. split; [apply extends_refl | repeat constructor].
    exists 0%nat. cbn. lia.
  - cbn [V2.loop]. unfold bind.
    destruct (V2_handle_effects ws unrep t s st)
      as [[-> _]|(s' & en & rc & -> & _ & Hen & Hrc & Hcount)].
    + exists [], []. split; [apply extends_refl | repeat constructor].
      cbn. lia.
    + destruct (IH s' (mk_world (log st ++ en) (stdout st) (recorded st ++ rc)))
        as (en' & rc' & Hext & Hen' & Hrc' & Hlen & Hret).
      exists (en ++ en')%list, (rc ++ rc')%list.
      split; [ | split; [ | split; [ | split]]].
      * eapply extends_trans; [reflexivity | exact Hext].
      * apply Forall_app. split; assumption.
      * apply Forall_app. split; assumption.
      * rewrite length_app. cbn [List.length].
        destruct Hcount as [[_ H1]|[H1 _]]; [ | rewrite H1; cbn [List.length]]; lia.
      * destruct (fst (V2.loop ws unrep rest s' _)); try exact I.
        destruct Hret as (failed & Hsum & Hfail).
        rewrite !length_app. cbn [List.length].
        destruct Hcount as [[H0 H1]|[H1 H2]].
        -- exists failed. rewrite H0, H1. cbn [List.length]. lia.
        -- exists (S failed). rewrite H1. cbn [List.length]. lia.
Qed.

(** X3. Whatever the ticks and the answers, the loop only appends to the
    log and to the recordings. Every recording it makes is the batch of
    four measurements of one Weather Record under [node_id]
    "openweathermap" or "darksky", and every entry it logs is a zap error
    entry about a fetch or a decoding: the failure path of
    [RecordMeasurement] is never taken from the loop. When the loop has
    served all the ticks, each tick has given either one recording and no
    entry, or no recording and one or two entries. *)
Theorem V2_loop_effects (ws : word_size) (unrep : float64 -> Z)
  (ticks : list tick) (s : loop_state) (st : World) :
  exists (entries : list LogEntry) (recs : list Recording),
    log (snd (V2.loop ws unrep ticks s st)) = (log st ++ entries)%list
    /\ recorded (snd (V2.loop ws unrep ticks s st)) = (recorded st ++ recs)%list
    /\ Forall fetch_entry entries
    /\ Forall source_recording recs
    /\ (List.length recs <= List.length ticks)%nat
    /\ match fst (V2.loop ws unrep ticks s st) with
       | Returns _ =>
           exists failed : nat,
             (List.length recs + failed = List.length ticks
              /\ failed <= List.length entries <= 2 * failed)%nat
       | _ => True
       end.
Proof.
  destruct (V2_loop_extends ws unrep ticks s st)
    as (entries & recs & Hext & Hen & Hrc & Hlen & Hret).
  exists entries, recs. unfold extends in Hext. rewrite Hext.
  cbn [log recorded].
  split; [reflexivity | split; [reflexivity|]].
  split; [exact Hen | split; [exact Hrc | split; [exact Hlen | exact Hret]]].
Qed.

(* ===================================================================== *)
(** * Start-up *)
(* ===================================================================== *)





(* ===================================================================== *)
(** * The two source files, side by side *)
(* ===================================================================== *)

(** X6. [CallDarkSkyForecast] and [InitOpenWeatherMap] of the two files
    differ in the way they fail only: where the one of part_000 logs an
    error and returns it, the one of main.go logs the same error with
    [log.Fatalf] (for [CallDarkSkyForecast] under the same message) and
    exits with status 1; where the one returns a value without an error,
    the other returns the same value, and neither logs anything. *)
Theorem versions_differ_on_failure_only (ws : word_size)
  (reply : http_reply) (net : owm_boot) (st : World) :
  match V2.CallDarkSkyForecast ws reply st with
  | (Returns (inr f), st') =>
      st' = st /\ V1.CallDarkSkyForecast ws reply st = (Returns f, st)
  | (Returns (inl e), st') =>
      exists format : string,
        st' = add_log [mk_entry Zap ErrorLevel format (Some e)] st
        /\ V1.CallDarkSkyForecast ws reply st
           = (Exits 1, add_log [mk_entry StdLog FatalLevel format (Some e)] st)
  | _ => False
  end
  /\ match V2.InitOpenWeatherMap net st with
     | (Returns (inr wuv), st') =>
         st' = st /\ V1.InitOpenWeatherMap net st = (Returns wuv, st)
     | (Returns (inl e), st') =>
         exists f2 f1 : string,
           st' = add_log [mk_entry Zap ErrorLevel f2 (Some e)] st
           /\ V1.InitOpenWeatherMap net st
              = (Exits 1, add_log [mk_entry StdLog FatalLevel f1 (Some e)] st)
     | _ => False
     end.
Proof.
  split.
  - destruct reply as [reason|status b];
      unfold V2.CallDarkSkyForecast, V1.CallDarkSkyForecast.
    + eexists. split; reflexivity.
    + destruct (Decode ws b) as [f [e|]].
      * eexists. split; reflexivity.
      * split; reflexivity.
  - unfold V2.InitOpenWeatherMap, V1.InitOpenWeatherMap.
    destruct (boot_NewCurrent net) as [e|w0].
    + eexists _, _. split; reflexivity.
    + destruct (boot_NewUV net) as [e|uv0].
      * eexists _, _. split; reflexivity.
      * split; reflexivity.
Qed.

(* ===================================================================== *)
(** * The poll loop of [src/main.go], tick after tick *)
(* ===================================================================== *)

(** One turn of the loop of main.go: it prints one line and returns, or
    exits with status 1 on one fatal entry of package [log], or panics
    before any effect. *)
Lemma V1_handle_effects (ws : word_size) (unrep : float64 -> Z)
  (t : tick) (s : loop_state) (st : World) :
  (exists s' line,
      V1.handle ws unrep t s st
      = (Returns s', mk_world (log st) (stdout st ++ [line]) (recorded st))
      /\ owmuv s' = owmuv s)
  \/ (exists en,
         V1.handle ws unrep t s st
         = (Exits 1, mk_world (log st ++ [en]) (stdout st) (recorded st))
         /\ entry_logger en = StdLog /\ entry_level en = FatalLevel)
  \/ V1.handle ws unrep t s st = (Panics (IndexOutOfRange 0 0), st).
Proof.
  destruct t as [fetch|[reason|status b]]; unfold V1.handle.
  - destruct (fst (fetch (owmw s))) as [[|w0 ws'] m wi c r].
    + right. right. reflexivity.
    + left. eexists _, _. split; reflexivity.
  - right. left. eexists. repeat split.
  - unfold V1.CallDarkSkyForecast. destruct (Decode ws b) as [f [e|]].
    + right. left. eexists. repeat split.
    + left. eexists _, _. split; reflexivity.
Qed.

(** X7. The loop of main.go never records and logs only to die. When it
    has served all the ticks it has printed exactly one line per tick and
    logged nothing; when it exits, the status is 1, exactly one entry has
    been logged, a fatal one of package [log], and fewer lines than ticks
    have been printed; its only panic is the index panic of
    [OWMToWeather], with nothing logged. *)
Theorem V1_loop_effects (ws : word_size) (unrep : float64 -> Z)
  (ticks : list tick) (s : loop_state) (st : World) :
  recorded (snd (V1.loop ws unrep ticks s st)) = recorded st
  /\ match V1.loop ws unrep ticks s st with
     | (Returns s', st') =>
         log st' = log st /\ owmuv s' = owmuv s
         /\ List.length (stdout st')
            = (List.length (stdout st) + List.length ticks)%nat
     | (Exits code, st') =>
         code = 1
         /\ (exists en, log st' = (log st ++ [en])%list
                        /\ entry_logger en = StdLog
                        /\ entry_level en = FatalLevel)
         /\ (List.length (stdout st')
             < List.length (stdout st) + List.length ticks)%nat
     | (Panics e, st') =>
         e = IndexOutOfRange 0 0 /\ log st' = log st
         /\ (List.length (stdout st')
             < List.length (stdout st) + List.length ticks)%nat
     end.
Proof.
  revert s st. induction ticks as [|t rest IH]; intros s st.
  - cbn. repeat split; lia.
  - cbn [V1.loop]. unfold bind.
    destruct (V1_handle_effects ws unrep t s st)
      as [(s' & line & -> & Huv)|[(en & -> & Hl & Hv)| ->]].
    + specialize (IH s' (mk_world (log st) (stdout st ++ [line]) (recorded st))).
      destruct IH as [Hrec IH]. split; [exact Hrec|].
      destruct (V1.loop ws unrep rest s' _) as [[s''|code|e] st'];
        cbn [log stdout recorded] in IH; rewrite length_app in IH;
        cbn [List.length] in *.
      * destruct IH as (H1 & H2 & H3). repeat split; try congruence; lia.
      * destruct IH as (H1 & H2 & H3). repeat split; try assumption; lia.
      * destruct IH as (H1 & H2 & H3). repeat split; try assumption; lia.
    + cbn. split; [reflexivity|]. split; [reflexivity|].
      split; [exists en; repeat split; assumption | lia].
    + cbn. repeat split; lia.
Qed.

(* ===================================================================== *)
(** * A reply that is not a forecast *)
(* ===================================================================== *)

(** No member of the object bears one of the four top-level names of the
    schema. *)
Definition foreign_object (members : list (string * json)) : Prop :=
  has_member "latitude" members = false
  /\ has_member "longitude" members = false
  /\ has_member "timezone" members = false
  /\ has_member "currently" members = false.

Lemma store_foreign_members (ws : word_size) (members : list (string * json)) :
  foreign_object members ->
  forall (f : DarkSkyForecast.t) (e : option json_error),
    fold_left
      (fun (acc : DarkSkyForecast.t * option json_error) (kv : string * json) =>
         let '(s', e') :=
           store_DarkSkyForecast_member ws (fst acc) (fst kv) (snd kv) in
         (s', first_error (snd acc) e'))
      members (f, e)
    = (f, e).
Proof.
  induction members as [|[k v] members IH]; intros Hm f e; [reflexivity|].
  destruct Hm as (H1 & H2 & H3 & H4).
  cbn [has_member existsb fst] in H1, H2, H3, H4.
  apply orb_false_elim in H1, H2, H3, H4.
  destruct H1 as [K1 H1], H2 as [K2 H2], H3 as [K3 H3], H4 as [K4 H4].
  cbn [fold_left fst snd].
  unfold store_DarkSkyForecast_member at 2. destruct f as [la lo tz cu].
  rewrite K1, K2, K3, K4.
  replace (first_error e None) with e by (destruct e; reflexivity).
  apply IH. repeat split; assumption.
Qed.

(** The Weather Record of the zero forecast. *)
Definition zero_record : Weather.t :=
  Weather.mk f64_zero f64_zero 0 "" f64_zero f64_zero 0 f64_zero f64_zero f64_zero.

(** X8. A reply whose body is a JSON object with none of the four
    top-level keys of the schema (the provider's error document, for
    one) is a forecast for the provider-B path of part_000, whatever its
    HTTP status: nothing is logged, and the tick records temperature 0,
    pressure 0, humidity 0 and wind speed 0 under "darksky". *)
Theorem V2_foreign_reply_recorded_as_zero (ws : word_size) (unrep : float64 -> Z)
  (status : Z) (members : list (string * json)) (s : loop_state) (st : World)
  (Hforeign : foreign_object members) :
  V2.handle ws unrep (DSTick (GetOk status (JSONText (JObject members)))) s st
  = (Returns s,
     mk_world (log st) (stdout st)
       (recorded st
        ++ [mk_recording [("node_id", "darksky")]
              [ Float64M V2.MTemperature f64_zero;
                Float64M V2.MPressure f64_zero;
                Int64M V2.MHumidity 0;
                Float64M V2.MWindSpeed f64_zero ]])).
Proof.
  unfold V2.handle, V2.CallDarkSkyForecast. cbn [Decode]. unfold store_members.
  rewrite (store_foreign_members ws members Hforeign).
  destruct ws; reflexivity.
Qed.

Lemma V2_foreign_reply_recorded_as_zero_witness :
  V2.handle W64 unrep_amd64
    (DSTick (GetOk 403
       (JSONText (JObject [("code", int_lit 403);
                           ("error", JString "permission denied")]))))
    (mk_loop_state scenario_owm scenario_uv) empty_world
  = (Returns (mk_loop_state scenario_owm scenario_uv),
     mk_world [] []
       [mk_recording [("node_id", "darksky")]
          [ Float64M V2.MTemperature f64_zero;
            Float64M V2.MPressure f64_zero;
            Int64M V2.MHumidity 0;
            Float64M V2.MWindSpeed f64_zero ]]).
Proof.
  apply (V2_foreign_reply_recorded_as_zero W64 unrep_amd64 403
           [("code", int_lit 403); ("error", JString "permission denied")]
           (mk_loop_state scenario_owm scenario_uv) empty_world).
  repeat split.
Defined.

(* ===================================================================== *)
(** * Integers as float64 *)
(* ===================================================================== *)

Lemma iter_xO_pos (d m : positive) :
  Zpos (Pos.iter xO m d) = Zpos m * 2 ^ Zpos d.
Proof.
  induction d as [|d IH] using Pos.peano_ind.
  - cbn [Pos.iter]. rewrite Pos2Z.inj_xO. change (2 ^ 1) with 2. lia.
  - rewrite Pos.iter_succ, Pos2Z.inj_xO, IH, Pos2Z.inj_succ.
    rewrite Z.pow_succ_r by lia. lia.
Qed.

Lemma iter_xO_digits (d m : positive) :
  digits2_pos (Pos.iter xO m d) = (digits2_pos m + d)%positive.
Proof.
  induction d as [|d IH] using Pos.peano_ind.
  - cbn [Pos.iter digits2_pos]. lia.
  - rewrite Pos.iter_succ. cbn [digits2_pos]. rewrite IH. lia.
Qed.

(** A mantissa of 53 digits at an exponent of the normal range is what
    rounding leaves untouched. *)
Lemma binary_round_aux_53 (s : bool) (m : positive) (e : Z) :
  Zpos (digits2_pos m) = 53 -> -1074 <= e <= 971 ->
  binary_round_aux prec emax s (Zpos m) e loc_Exact = S754_finite s m e.
Proof.
  intros Hd He. unfold binary_round_aux, shr_fexp.
  cbn [shr_record_of_loc Zdigits2]. rewrite fexp_binary64, Hd.
  replace (Z.max (53 + e - 53) (-1074) - e) with 0 by lia.
  cbn [shr shr_m loc_of_shr_record round_nearest_even Zdigits2].
  rewrite fexp_binary64, Hd.
  replace (Z.max (53 + e - 53) (-1074) - e) with 0 by lia.
  cbn [shr shr_m].
  replace (e <=? emax - prec)%Z with true; [reflexivity|].
  symmetry. apply Z.leb_le. change (emax - prec) with 971. lia.
Qed.

(** The float64 of a positive integer below [2^53]: the integer itself,
    its mantissa shifted up to 53 digits. *)
Lemma binary_round_small (s : bool) (m : positive) :
  Zpos m < 2 ^ 53 ->
  exists (mz : positive) (ez : Z),
    binary_round prec emax s m 0 = S754_finite s mz ez
    /\ -52 <= ez <= 0 /\ Zpos mz = Zpos m * 2 ^ (- ez)
    /\ Zpos (digits2_pos mz) = 53.
Proof.
  intros Hm. pose proof (digits2_pos_bounds m) as [Hlo _].
  set (d := Zpos (digits2_pos m)) in *.
  assert (Hd1 : 1 <= d) by (unfold d; lia).
  assert (Hd : d <= 53).
  { destruct (Z_le_gt_dec d 53) as [H|H]; [exact H|].
    assert (2 ^ 53 <= 2 ^ (d - 1)) by (apply Z.pow_le_mono_r; lia). lia. }
  unfold binary_round, shl_align. rewrite fexp_binary64. fold d.
  replace (Z.max (d + 0 - 53) (-1074) - 0) with (d - 53) by lia.
  replace (Z.max (d + 0 - 53) (-1074)) with (d - 53) by lia.
  destruct (d - 53) as [|p|p] eqn:Hp; [ | lia | ].
  - exists m, 0. rewrite binary_round_aux_53 by (fold d; lia).
    repeat split; lia.
  - exists (Pos.iter xO m p), (Zneg p).
    assert (Hdz : Zpos (digits2_pos (Pos.iter xO m p)) = 53).
    { rewrite iter_xO_digits, Pos2Z.inj_add. fold d. lia. }
    rewrite binary_round_aux_53 by (try exact Hdz; lia).
    split; [reflexivity|]. split; [lia|].
    split; [rewrite iter_xO_pos; reflexivity | exact Hdz].
Qed.

(** The conversion [float64(n)] is exact on every integer of magnitude
    below [2^53]: the result is a float64 whose integer part is [n] and
    whose value is [n]. *)
Lemma f64_of_Z_exact (n : Z) :
  - 2 ^ 53 < n < 2 ^ 53 ->
  is_float64 (f64_of_Z n)
  /\ f64_trunc (f64_of_Z n) = Some n
  /\ (f64_val (f64_of_Z n) == inject_Z n)%Q.
Proof.
  intros Hn. unfold f64_of_Z, binary_normalize.
  destruct n as [|m|m].
  - repeat split; reflexivity.
  - destruct (binary_round_small false m ltac:(lia)) as (mz & ez & -> & He & Hv & Hd).
    split; [ | split].
    + unfold is_float64. cbn [valid_binary]. unfold bounded, canonical_mantissa.
      rewrite fexp_binary64, Hd.
      apply andb_true_intro. split; [apply Z.eqb_eq; lia | apply Z.leb_le].
      change (emax - prec) with 971. lia.
    + cbn [f64_trunc]. destruct ez as [|p|p]; [ | lia | ].
      * f_equal. change (2 ^ (- 0)) with 1 in Hv. change (2 ^ 0) with 1. lia.
      * f_equal. change (- Zneg p) with (Zpos p) in Hv. rewrite Hv.
        pose proof (pow2_pos p). rewrite Z.quot_div_nonneg by lia.
        apply Z.div_mul. lia.
    + cbn [f64_val]. destruct ez as [|p|p]; [ | lia | ].
      * change (2 ^ (- 0)) with 1 in Hv.
        replace (Zpos mz * 2 ^ 0) with (Zpos m)
          by (change (2 ^ 0) with 1; lia).
        reflexivity.
      * change (- Zneg p) with (Zpos p) in Hv.
        unfold Qeq, inject_Z. cbn [Qnum Qden].
        rewrite Pos2Z.inj_pow, Hv. lia.
  - destruct (binary_round_small true m ltac:(lia)) as (mz & ez & -> & He & Hv & Hd).
    split; [ | split].
    + unfold is_float64. cbn [valid_binary]. unfold bounded, canonical_mantissa.
      rewrite fexp_binary64, Hd.
      apply andb_true_intro. split; [apply Z.eqb_eq; lia | apply Z.leb_le].
      change (emax - prec) with 971. lia.
    + cbn [f64_trunc]. destruct ez as [|p|p]; [ | lia | ].
      * f_equal. change (2 ^ (- 0)) with 1 in Hv. change (2 ^ 0) with 1. lia.
      * f_equal. change (- Zneg p) with (Zpos p) in Hv.
        change (Zneg mz) with (- Zpos mz). rewrite Hv.
        pose proof (pow2_pos p).
        rewrite Z.quot_opp_l by lia.
        rewrite Z.quot_div_nonneg by lia.
        rewrite Z.div_mul by lia. reflexivity.
    + cbn [f64_val]. destruct ez as [|p|p]; [ | lia | ].
      * change (2 ^ (- 0)) with 1 in Hv.
        replace (Zneg mz * 2 ^ 0) with (Zneg m)
          by (change (2 ^ 0) with 1; lia).
        reflexivity.
      * change (- Zneg p) with (Zpos p) in Hv.
        unfold Qeq, inject_Z. cbn [Qnum Qden].
        rewrite Pos2Z.inj_pow. change (Zneg mz) with (- Zpos mz).
        rewrite Hv. lia.
Qed.

(** The same on the closed interval: [2^53] and its opposite are float64
    too. *)
Lemma f64_of_Z_exact_closed (n : Z) :
  - 2 ^ 53 <= n <= 2 ^ 53 ->
  is_float64 (f64_of_Z n)
  /\ f64_trunc (f64_of_Z n) = Some n
  /\ (f64_val (f64_of_Z n) == inject_Z n)%Q.
Proof.
  intros Hn.
  destruct (Z.eq_dec n (2 ^ 53)) as [->|H1]; [repeat split; reflexivity|].
  destruct (Z.eq_dec n (- 2 ^ 53)) as [->|H2]; [repeat split; reflexivity|].
  apply f64_of_Z_exact. lia.
Qed.

(** X9. The wind direction of [DSToWeather] is the bearing of the
    response, exactly: the widening [float64(WindBearing)] loses nothing
    on a bearing of magnitude at most [2^53], which every int of a 32-bit
    build is. Just beyond, the bearings [2^53 + 1] and [-(2^53 + 1)] are
    not preserved: they become [2^53] and [-2^53]. *)
Theorem DSToWeather_wind_direction_exact (ws : word_size) (unrep : float64 -> Z)
  (f : DarkSkyForecast.t)
  (Hb : - 2 ^ 53 <= Currently.WindBearing (DarkSkyForecast.Currently f) <= 2 ^ 53) :
  is_float64 (Weather.WindDeg (DSToWeather ws unrep f))
  /\ f64_trunc (Weather.WindDeg (DSToWeather ws unrep f))
     = Some (Currently.WindBearing (DarkSkyForecast.Currently f))
  /\ (f64_val (Weather.WindDeg (DSToWeather ws unrep f))
      == inject_Z (Currently.WindBearing (DarkSkyForecast.Currently f)))%Q
  /\ (forall n : Z, in_int W32 n = true -> - 2 ^ 53 <= n <= 2 ^ 53)
  /\ f64_trunc (f64_of_Z (2 ^ 53 + 1)) = Some (2 ^ 53)
  /\ f64_trunc (f64_of_Z (- (2 ^ 53 + 1))) = Some (- 2 ^ 53).
Proof.
  destruct (f64_of_Z_exact_closed _ Hb) as (H1 & H2 & H3).
  split; [exact H1 | split; [exact H2 | split; [exact H3 | split]]].
  - intros n Hn. unfold in_int, int_min, int_max in Hn. cbn [int_bits] in Hn.
    apply andb_prop in Hn. destruct Hn as [Hl Hu].
    apply Z.leb_le in Hl. apply Z.leb_le in Hu.
    change (2 ^ (32 - 1)) with 2147483648 in Hl, Hu.
    change (2 ^ 53) with 9007199254740992. lia.
  - split; reflexivity.
Qed.

Lemma DSToWeather_wind_direction_exact_witness :
  is_float64 (Weather.WindDeg (DSToWeather W64 unrep_amd64 scenario_ds))
  /\ f64_trunc (Weather.WindDeg (DSToWeather W64 unrep_amd64 scenario_ds)) = Some 90
  /\ (f64_val (Weather.WindDeg (DSToWeather W64 unrep_amd64 scenario_ds))
      == inject_Z 90)%Q
  /\ (forall n : Z, in_int W32 n = true -> - 2 ^ 53 <= n <= 2 ^ 53)
  /\ f64_trunc (f64_of_Z (2 ^ 53 + 1)) = Some (2 ^ 53)
  /\ f64_trunc (f64_of_Z (- (2 ^ 53 + 1))) = Some (- 2 ^ 53).
Proof.
  apply (DSToWeather_wind_direction_exact W64 unrep_amd64 scenario_ds).
  split; discriminate.
Defined.

(* ===================================================================== *)
(** * From the answer of the provider to the recording *)
(* ===================================================================== *)

(** From the loop both source identifiers are valid tag values: the
    call of [RecordMeasurement] is the submission of the batch. *)
Lemma RecordMeasurement_from_loop (id : string) (w : Weather.t) (st : World) :
  id = "openweathermap" \/ id = "darksky" ->
  V2.RecordMeasurement id w st
  = (Returns None,
     mk_world (log st) (stdout st)
       (recorded st ++ [mk_recording [("node_id", id)] (four_measurements w)])).
Proof. intros [-> | ->]; reflexivity. Qed.

(** X10. A provider-B tick of part_000 on a body that decodes, with a
    humidity fraction in [0,1]: nothing is logged, and the one recording
    made, under "darksky", holds the decoded temperature, pressure and
    wind speed as they are and, as humidity, the floor of a hundred times
    the fraction, an integer of [0,100]. *)
Theorem V2_DarkSky_tick_records (ws : word_size) (unrep : float64 -> Z)
  (status : Z) (b : body) (f : DarkSkyForecast.t) (s : loop_state) (st : World)
  (Hdec : Decode ws b = (f, None))
  (Hh : in_unit_interval (Currently.Humidity (DarkSkyForecast.Currently f))) :
  exists h : Z,
    h = Qfloor (f64_val (f64_mul (Currently.Humidity (DarkSkyForecast.Currently f))
                                 (f64_of_Z 100)))
    /\ 0 <= h <= 100
    /\ V2.handle ws unrep (DSTick (GetOk status b)) s st
       = (Returns s,
          mk_world (log st) (stdout st)
            (recorded st
             ++ [mk_recording [("node_id", "darksky")]
                   [ Float64M V2.MTemperature
                       (Currently.Temperature (DarkSkyForecast.Currently f));
                     Float64M V2.MPressure
                       (Currently.Pressure (DarkSkyForecast.Currently f));
                     Int64M V2.MHumidity h;
                     Float64M V2.MWindSpeed
                       (Currently.WindSpeed (DarkSkyForecast.Currently f)) ]])).
Proof.
  destruct Hh as (Hh1 & Hh2 & Hh3).
  destruct (f64_to_int_pct ws unrep _ Hh1 Hh2 Hh3) as [Hf Hb].
  exists (Weather.Humidity (DSToWeather ws unrep f)).
  split; [exact Hf | split; [exact Hb|]].
  unfold V2.handle, V2.CallDarkSkyForecast. rewrite Hdec.
  assert (Hw : int64_of_int (Weather.Humidity (DSToWeather ws unrep f))
               = Weather.Humidity (DSToWeather ws unrep f)).
  { apply (int64_of_int_id W32). unfold in_int, int_min, int_max.
    cbn [int_bits]. change (2 ^ (32 - 1)) with 2147483648.
    cbn [DSToWeather Weather.Humidity] in Hb |- *.
    apply andb_true_intro. split; apply Z.leb_le; lia. }
  cbv [bind ret].
  rewrite RecordMeasurement_from_loop by (right; reflexivity).
  unfold four_measurements. rewrite Hw. reflexivity.
Qed.

Lemma V2_DarkSky_tick_records_witness :
  exists h : Z,
    h = Qfloor (f64_val (f64_mul (f64_of_decimal 55 2) (f64_of_Z 100)))
    /\ 0 <= h <= 100
    /\ V2.handle W64 unrep_amd64 (DSTick (GetOk 200 (JSONText scenario_ds_json)))
         (mk_loop_state scenario_owm scenario_uv) empty_world
       = (Returns (mk_loop_state scenario_owm scenario_uv),
          mk_world [] []
            [mk_recording [("node_id", "darksky")]
               [ Float64M V2.MTemperature (f64_of_decimal 100 1);
                 Float64M V2.MPressure (f64_of_Z 1000);
                 Int64M V2.MHumidity h;
                 Float64M V2.MWindSpeed (f64_of_decimal 20 1) ]]).
Proof.
  apply (V2_DarkSky_tick_records W64 unrep_amd64 200 (JSONText scenario_ds_json)
           scenario_ds (mk_loop_state scenario_owm scenario_uv) empty_world).
  - reflexivity.
  - repeat split; reflexivity.
Defined.

(** X11. A provider-A tick of part_000 whose fetch succeeds on a response
    with a weather element and a humidity that is an int of the build:
    nothing is logged, the client keeps the response, and the one
    recording made, under "openweathermap", holds the temperature, the
    pressure and the wind speed of the response and its humidity, which
    the widening to int64 leaves as it is. *)
Theorem V2_OWM_tick_records (ws : word_size) (unrep : float64 -> Z)
  (fetch : owm_fetch) (w' : owm.CurrentWeatherData.t) (s : loop_state)
  (st : World)
  (Hfetch : fetch (owmw s) = (w', None))
  (Hw : owm.CurrentWeatherData.Weather w' <> [])
  (Hh : in_int ws (owm.Main.Humidity (owm.CurrentWeatherData.Main w')) = true) :
  V2.handle ws unrep (OWMTick fetch) s st
  = (Returns (mk_loop_state w' (owmuv s)),
     mk_world (log st) (stdout st)
       (recorded st
        ++ [mk_recording [("node_id", "openweathermap")]
              [ Float64M V2.MTemperature
                  (owm.Main.Temp (owm.CurrentWeatherData.Main w'));
                Float64M V2.MPressure
                  (owm.Main.Pressure (owm.CurrentWeatherData.Main w'));
                Int64M V2.MHumidity
                  (owm.Main.Humidity (owm.CurrentWeatherData.Main w'));
                Float64M V2.MWindSpeed
                  (owm.Wind.Speed (owm.CurrentWeatherData.Wind w')) ]])).
Proof.
  unfold V2.handle. rewrite Hfetch.
  destruct w' as [[|w0 rest] m wi c r]; [contradiction Hw; reflexivity|].
  cbn [owm.CurrentWeatherData.Main owm.CurrentWeatherData.Wind] in *.
  rewrite OWMToWeather_cons. cbv [bind ret of_result].
  rewrite RecordMeasurement_from_loop by (left; reflexivity).
  unfold four_measurements. cbn [Weather.Humidity].
  rewrite (int64_of_int_id ws _ Hh). reflexivity.
Qed.

Lemma V2_OWM_tick_records_witness :
  V2.handle W64 unrep_amd64 (OWMTick (fun _ => (scenario_owm, None)))
    (mk_loop_state scenario_owm scenario_uv) empty_world
  = (Returns (mk_loop_state scenario_owm scenario_uv),
     mk_world [] []
       [mk_recording [("node_id", "openweathermap")]
          [ Float64M V2.MTemperature (f64_of_decimal 152 1);
            Float64M V2.MPressure (f64_of_Z 1013);
            Int64M V2.MHumidity 60;
            Float64M V2.MWindSpeed (f64_of_decimal 31 1) ]]).
Proof.
  apply (V2_OWM_tick_records W64 unrep_amd64 (fun _ => (scenario_owm, None))
           scenario_owm (mk_loop_state scenario_owm scenario_uv) empty_world).
  - reflexivity.
  - discriminate.
  - reflexivity.
Defined.

(* ===================================================================== *)
(** * What main.go prints *)
(* ===================================================================== *)

Definition OWM_line : string :=
  "OWM: Weather: %s, Temp: %f, Pressure: %f, Humidity: %d, UV: %f\n".

Definition DS_line : string :=
  "DS: Weather: %s, Temp: %f, Pressure: %f, Humidity: %d, UV: %f\n".

(** The UV argument of a printed line: the fifth one. *)
Definition printed_UV (line : string * list printf_arg) : option printf_arg :=
  nth_error (snd line) 4.

(** A line of the loop: a provider-A line with the UV value [uv], or a
    provider-B line with UV 0. *)
Definition line_of_loop (uv : float64) (line : string * list printf_arg) : Prop :=
  (fst line = OWM_line /\ printed_UV line = Some (PFloat uv))
  \/ (fst line = DS_line /\ printed_UV line = Some (PFloat f64_zero)).

Lemma V1_handle_line (ws : word_size) (unrep : float64 -> Z)
  (t : tick) (s : loop_state) (st : World) :
  (exists s' line,
      V1.handle ws unrep t s st
      = (Returns s', mk_world (log st) (stdout st ++ [line]) (recorded st))
      /\ owmuv s' = owmuv s
      /\ line_of_loop (owm.UV.Value (owmuv s)) line)
  \/ (exists o st', V1.handle ws unrep t s st = (o, st')
                    /\ stdout st' = stdout st
                    /\ forall s', o <> Returns s').
Proof.
  destruct t as [fetch|[reason|status b]]; unfold V1.handle.
  - destruct (fst (fetch (owmw s))) as [[|w0 ws'] m wi c r].
    + right. eexists _, _. split; [reflexivity|]. split; [reflexivity | discriminate].
    + left. eexists _, _. split; [reflexivity|]. split; [reflexivity|].
      left. split; reflexivity.
  - right. eexists _, _. split; [reflexivity|]. split; [reflexivity | discriminate].
  - unfold V1.CallDarkSkyForecast. destruct (Decode ws b) as [f [e|]].
    + right. eexists _, _. split; [reflexivity|].
      split; [reflexivity | discriminate].
    + left. eexists _, _. split; [reflexivity|]. split; [reflexivity|].
      right. split; reflexivity.
Qed.

(** X12. The UV index that main.go prints is never refreshed: whatever
    the ticks and the answers, every provider-A line it prints carries
    the UV value the UV client held when the loop started, and every
    provider-B line carries UV 0. *)
Theorem V1_prints_startup_UV (ws : word_size) (unrep : float64 -> Z)
  (ticks : list tick) (s : loop_state) (st : World) :
  exists lines : list (string * list printf_arg),
    stdout (snd (V1.loop ws unrep ticks s st)) = (stdout st ++ lines)%list
    /\ Forall (line_of_loop (owm.UV.Value (owmuv s))) lines.
Proof.
  revert s st. induction ticks as [|t rest IH]; intros s st.
  - exists []. split; [cbn; rewrite app_nil_r; reflexivity | constructor].
  - cbn [V1.loop]. unfold bind.
    destruct (V1_handle_line ws unrep t s st)
      as [(s' & line & -> & Huv & Hline)|(o & st' & -> & Hout & Hno)].
    + destruct (IH s' (mk_world (log st) (stdout st ++ [line]) (recorded st)))
        as (lines & Heq & Hall).
      exists (line :: lines). split.
      * rewrite Heq. cbn [stdout]. rewrite <- app_assoc. reflexivity.
      * constructor; [exact Hline | rewrite <- Huv; exact Hall].
    + exists []. split; [ | constructor].
      rewrite app_nil_r. destruct o as [s'|code|e]; [ | exact Hout | exact Hout].
      contradiction (Hno s'). reflexivity.
Qed.

(* ===================================================================== *)
(** * Views and metric types of part_000 *)
(* ===================================================================== *)

(** [view.View] of go.opencensus.io, with the fields the program sets;
    [view.LastValue()] is the one aggregation it uses. *)
Inductive Aggregation := LastValue.

Module View.
Record t := mk {
  Name : string;
  Measure : Measure;
  Description : string;
  Aggregation : Aggregation
}.
End View.

Definition TemperatureView : View.t :=
  View.mk V2.MeasureTemperature V2.MTemperature "air temperature" LastValue.
Definition PressureView : View.t :=
  View.mk V2.MeasurePressure V2.MPressure "barometric pressure" LastValue.
Definition HumidityView : View.t :=
  View.mk V2.MeasureHumidity V2.MHumidity "air humidity" LastValue.
Definition WindSpeedView : View.t :=
  View.mk V2.MeasureWindSpeed V2.MWindSpeed "wind speed" LastValue.

(** [WeatherReportViews]: [HumidityView] is commented out of the list. *)
Definition WeatherReportViews : list View.t :=
  [TemperatureView; PressureView; WindSpeedView].

(** [func GetMetricType(v *view.View) string]:
    [fmt.Sprintf("custom.googleapis.com/%s", v.Name)]. *)
Definition GetMetricType (v : View.t) : string :=
  "custom.googleapis.com/" ++ View.Name v.

Lemma append_inj_l (p a b : string) : p ++ a = p ++ b -> a = b.
Proof.
  induction p as [|c p IH]; cbn [append]; intros H; [exact H|].
  injection H as H. exact (IH H).
Qed.

Lemma prefix_append (p a : string) : prefix p (p ++ a) = true.
Proof.
  induction p as [|c p IH]; cbn [append prefix]; [destruct a; reflexivity|].
  destruct (ascii_dec c c) as [_|Hn]; [exact IH | contradiction Hn; reflexivity].
Qed.

Lemma length_append (p a : string) :
  String.length (p ++ a) = (String.length p + String.length a)%nat.
Proof. induction p as [|c p IH]; cbn; [reflexivity | rewrite IH; reflexivity]. Qed.

(** X13. [GetMetricType] maps two views to the same metric type exactly
    when they bear the same name, and every metric type it makes lies
    under [custom.googleapis.com/]. *)
Theorem GetMetricType_injective (v1 v2 : View.t) :
  (GetMetricType v1 = GetMetricType v2 <-> View.Name v1 = View.Name v2)
  /\ prefix "custom.googleapis.com/" (GetMetricType v1) = true
  /\ String.length (GetMetricType v1) = (22 + String.length (View.Name v1))%nat.
Proof.
  unfold GetMetricType. split; [split | split].
  - apply append_inj_l.
  - intros ->. reflexivity.
  - apply prefix_append.
  - rewrite length_append. reflexivity.
Qed.

(** The measure of a measurement. *)
Definition measure_of (m : Measurement) : Measure :=
  match m with
  | Float64M ms _ => ms
  | Int64M ms _ => ms
  end.

(** A measure is exported when a registered view is on it (measures go
    by their names). *)
Definition has_view (views : list View.t) (ms : Measure) : bool :=
  existsb (fun v => String.eqb (measure_name (View.Measure v)) (measure_name ms))
          views.

(** X14. Of the four measurements of a recording of the loop, three are
    on a measure with a registered view: temperature, pressure and wind
    speed, in this order. The humidity measurement has no view, and no
    measurement is on the wind direction measure. *)
Theorem recording_views (r : Recording) (Hr : source_recording r) :
  map (fun m => measure_name (measure_of m))
      (filter (fun m => has_view WeatherReportViews (measure_of m))
              (rec_measurements r))
  = ["temperature"; "pressure"; "windspeed"]
  /\ map (fun m => measure_name (measure_of m))
         (filter (fun m => negb (has_view WeatherReportViews (measure_of m)))
                 (rec_measurements r))
     = ["humidity"]
  /\ ~ In V2.MWindDeg (map measure_of (rec_measurements r)).
Proof.
  destruct Hr as (id & w & _ & ->). cbn [rec_measurements].
  split; [reflexivity | split; [reflexivity|]].
  cbn. intros [H|[H|[H|[H|[]]]]]; discriminate H.
Qed.

Lemma recording_views_witness :
  map (fun m => measure_name (measure_of m))
      (filter (fun m => has_view WeatherReportViews (measure_of m))
              (four_measurements scenario_ds_record))
  = ["temperature"; "pressure"; "windspeed"]
  /\ map (fun m => measure_name (measure_of m))
         (filter (fun m => negb (has_view WeatherReportViews (measure_of m)))
                 (four_measurements scenario_ds_record))
     = ["humidity"]
  /\ ~ In V2.MWindDeg (map measure_of (four_measurements scenario_ds_record)).
Proof.
  apply (recording_views
           (mk_recording [("node_id", "darksky")]
                         (four_measurements scenario_ds_record))).
  exists "darksky", scenario_ds_record. split; [right; reflexivity | reflexivity].
Defined.
